(** * GasStation: permit-based relaying of token transfers

    A shallow embedding of the wallet's [GasStation] module
    ([forgeTxAndParams], [estimate] and their helpers) and the proofs of
    the properties its specification states about it.

    The module is a sequence of awaited calls on a [TezosToolkit]: the
    signer, the RPC client, the wallet and the contract proxy.  Those are
    modelled as handlers over a world state; every awaited call is
    recorded, with its outcome, in a log, so that the order of the calls
    and what happens after a rejected one can be stated and proved. *)

From Stdlib Require Import NArith List String Ascii Bool Lia DecimalString.
From Stdlib Require DecimalPos DecimalN.
Import ListNotations.
Local Open Scope string_scope.
Set Warnings "-register-all".

(** ** JavaScript numbers *)

(** The numbers this module handles are token ids, token amounts, permit
    counters and fees in mutez: non-negative integers held in IEEE-754
    doubles.  [Finite n] is the double whose value is the integer [n];
    [Infinity] is what a conversion or a sum beyond the range of doubles
    gives. *)
Inductive number : Type :=
| Finite (n : N)
| Infinity.

(** The double nearest to the integer [n] (round to nearest, ties to
    even): integers below 2^53 are doubles; above, only the 53 leading
    bits are kept. *)
Definition round_double (n : N) : number :=
  if (n <? 2 ^ 53)%N then Finite n
  else
    let e := (N.log2 n - 52)%N in
    let q := N.shiftr n e in
    let r := N.land n (N.ones e) in
    let half := N.shiftl 1 (e - 1) in
    let q' := if ((half <? r) || ((r =? half) && N.odd q))%N%bool
              then (q + 1)%N else q in
    let v := N.shiftl q' e in
    if (v <? 2 ^ 1024)%N then Finite v else Infinity.

(** [BigNumber.prototype.toNumber] on a natural number (a Michelson [nat]
    of the contract's storage). *)
Definition BigNumber := N.

Definition toNumber (b : BigNumber) : number := round_double b.

(** [a + b] on numbers. *)
Definition number_add (a b : number) : number :=
  match a, b with
  | Finite x, Finite y => round_double (x + y)
  | _, _ => Infinity
  end.

(** All the digits of a natural number, in base ten. *)
Definition decimal (n : N) : string := NilZero.string_of_uint (N.to_uint n).

(** Whether the decimal [s * 10^j] reads back as the double [m]. *)
Definition reads_back (m s : N) (j : nat) : bool :=
  match round_double (s * 10 ^ N.of_nat j) with
  | Finite v => (v =? m)%N
  | Infinity => false
  end.

(** The shortest decimal [s * 10^j] that still reads back as the double
    [m]: the digits [Number.prototype.toString] prints.  The multiples of
    [10^j] next to [m], below and above, are tried from the largest [j]
    down; when both read back as [m] the closer one is taken, the even
    one on a tie. *)
Fixpoint shortest_digits (m : N) (j : nat) : N * nat :=
  match j with
  | O => (m, O)
  | S j' =>
      let p := (10 ^ N.of_nat j)%N in
      let below := (m / p)%N in
      let above := (below + 1)%N in
      let r := (m mod p)%N in
      match reads_back m below j, reads_back m above j with
      | true, true =>
          if ((p <? 2 * r) || ((2 * r =? p) && N.odd below))%N%bool
          then (above, j) else (below, j)
      | true, false => (below, j)
      | false, true => (above, j)
      | false, false => shortest_digits m j'
      end
  end.

Fixpoint zeros (j : nat) : string :=
  match j with
  | O => ""
  | S j' => "0" ++ zeros j'
  end.

(** [Number.prototype.toString()], radix ten.  Up to 2^53 every digit of
    the integer is printed; beyond, the shortest digits that identify the
    double, padded with zeros up to 21 digits and in exponent notation
    above. *)
Definition toString (x : number) : string :=
  match x with
  | Infinity => "Infinity"
  | Finite m =>
      if (m <=? 2 ^ 53)%N then decimal m
      else
        let '(s, j) := shortest_digits m (String.length (decimal m)) in
        let digits := decimal s in
        let n := (String.length digits + j)%nat in
        if Nat.leb n 21 then digits ++ zeros j
        else
          let exponent := "e+" ++ decimal (N.of_nat (n - 1)) in
          match digits with
          | String d EmptyString => String d exponent
          | String d rest => String d ("." ++ rest ++ exponent)
          | EmptyString => exponent
          end
  end.

(** ** Values *)

Local Open Scope list_scope.

(** The [any]-typed argument trees that are passed to the contract's
    schema: arrays, object literals, strings, numbers and [undefined]. *)
Inductive value : Type :=
| VUndefined
| VNumber (n : number)
| VString (s : string)
| VArray (items : list value)
| VObject (fields : list (string * value)).

(** Micheline expressions, as the JSON the RPC client takes: [{prim, args}],
    [{string}], [{int}], [{bytes}] and sequences.  [args] is [None] where
    the object literal has no [args] key. *)
Inductive Micheline : Type :=
| MPrim (prim : string) (args : option (list Micheline))
| MString (s : string)
| MInt (i : string)
| MBytes (b : string)
| MSeq (items : list Micheline).

(** What is thrown or rejected: the error, as is. *)
Definition exn := string.

Definition result (A : Type) : Type := (exn + A)%type.

Record ForgeTxParams : Type := {
  to : string;
  tokenAddress : string;
  tokenId : option number;
  amount : number;
  relayerFee : number
}.

Record CallParams : Type := {
  entrypoint : string;
  params : value
}.

Record PermitParams : Type := {
  signature : string;
  hash : string;
  pubkey : string;
  contractAddress : string;
  callParams : CallParams
}.

(** [Pick<PermitParams, "pubkey" | "signature" | "hash">], the second
    component of what [forgeTxAndParams] returns. *)
Record PermitPick : Type := {
  pick_pubkey : string;
  pick_signature : string;
  pick_hash : string
}.

(** The argument of [rpc.packData]. *)
Record PackDataParams : Type := {
  data : Micheline;
  type : Micheline
}.

Record PackDataResponse : Type := {
  packed : string;
  gas : option BigNumber
}.

Record SignResult : Type := {
  bytes : string;
  sig : string;
  prefixSig : string;
  sbytes : string
}.

Record Storage : Type := {
  permit_counter : option BigNumber
}.

(** The unsigned call descriptor [toTransferParams({})] gives. *)
Record TransferParams : Type := {
  tp_to : string;
  tp_amount : number;
  tp_parameter : string * Micheline
}.

Inductive OpKind : Type :=
| ORIGINATION | DELEGATION | REVEAL | TRANSACTION | ACTIVATION.

(** [{ kind, ...tParams }] *)
Record ParamsWithKind : Type := {
  kind : OpKind;
  tParams : TransferParams
}.

Record Estimate : Type := {
  suggestedFeeMutez : number;
  gasLimit : number;
  storageLimit : number
}.

(** Modelled from the spec: the [ReadOnlySigner] class of
    [../read-only-signer], which is not among the sources.  The spec has
    it as a fixed identity, a constant address and public key, that is
    used for simulation only and never signs; [new ReadOnlySigner(pkh, pk)]
    is the constructor. *)
Inductive Signer : Type :=
| ReadOnlySigner (publicKeyHash publicKey : string).

Definition signer_address (s : Signer) : string :=
  match s with ReadOnlySigner pkh _ => pkh end.

Definition RELAYER_ADDRESS : string := "tz1VSUr8wwNhLAzempoch5d6hLRiTh8Cjcjb".
Definition ESTIMATOR_ADDRESS : string := "tz1VSUr8wwNhLAzempoch5d6hLRiTh8Cjcjb".
Definition ESTIMATOR_PUBLIC_KEY : string :=
  "edpkvGfYw3LyB1UcCahKQk4rF2tvbMUk8GFiTuMjL75uGXrpvKXhjn".

(** ** Pure helpers *)

Definition optional (n : option number) : value :=
  match n with
  | Some x => VNumber x
  | None => VUndefined
  end.

Definition formTransferParams (from_ relayerAddress : string)
    (p : ForgeTxParams) : value :=
  let intendedTx :=
    VObject [("to_", VString (to p)); ("token_id", optional (tokenId p));
             ("amount", VNumber (amount p))] in
  let feeTx :=
    VObject [("to_", VString relayerAddress);
             ("token_id", optional (tokenId p));
             ("amount", VNumber (relayerFee p))] in
  let txList :=
    VArray [VArray [VObject [("from_", VString from_);
                             ("txs", VArray [intendedTx; feeTx])]]] in
  txList.

Definition getUnpackedUniques (contractAddress chainId : string)
    (currentPermitCount : number) (permitHash : string) : PackDataParams :=
  {| data :=
       MPrim "Pair"
         (Some [MPrim "Pair"
                  (Some [MString contractAddress; MString chainId]);
                MPrim "Pair"
                  (Some [MInt (toString currentPermitCount);
                         MBytes permitHash])]);
     type :=
       MPrim "pair"
         (Some [MPrim "pair"
                  (Some [MPrim "address" None; MPrim "chain_id" None]);
                MPrim "pair"
                  (Some [MPrim "nat" None; MPrim "bytes" None])]) |}.

Fixpoint characters (s : string) : list value :=
  match s with
  | EmptyString => []
  | String c s' => VString (String c EmptyString) :: characters s'
  end.

(** [...v] in an argument list: the elements of an array, the characters
    of a string; anything else is not iterable. *)
Definition spread (v : value) : result (list value) :=
  match v with
  | VArray items => inr items
  | VString s => inr (characters s)
  | _ => inl "TypeError: parameters is not iterable"
  end.

(** Property access on a value. *)
Fixpoint lookup (key : string) (fields : list (string * value)) : value :=
  match fields with
  | [] => VUndefined
  | (k, v) :: rest => if String.eqb k key then v else lookup key rest
  end.

Definition get (key : string) (v : value) : value :=
  match v with
  | VObject fields => lookup key fields
  | _ => VUndefined
  end.

(** Indexing: [v[i]]. *)
Definition item (i : nat) (v : value) : value :=
  match v with
  | VArray items => nth i items VUndefined
  | _ => VUndefined
  end.

(** The legs of the first group of a batch, [batch[0][0].txs], and the
    second of them, the one that pays the relayer. *)
Definition legs (batch : value) : value := get "txs" (item 0 (item 0 batch)).

Definition fee_leg (batch : value) : value := item 1 (legs batch).

(** ** The toolkit, the world and the log of calls *)

Section Toolkit.

(** The state of everything outside the module: the node, the chain, the
    wallet.  A handler answers one awaited call: it resolves ([inr]) or
    rejects ([inl]) and may change the world. *)
Variable W : Type.

Definition handler (A : Type) : Type := W -> result A * W.

(** A contract proxy: [ContractAbstraction]. *)
Record ContractAbstraction : Type := {
  address : string;
  storage : handler Storage;
  (** [parameterSchema.Encode(entrypoint, ...args)] *)
  parameterSchema_Encode : string -> list value -> result Micheline;
  (** [parameterSchema.root.typeWithoutAnnotations()] *)
  parameterSchema_root_typeWithoutAnnotations : Micheline;
  (** [methods[entrypoint](...args).toTransferParams({})] *)
  methods : string -> list value -> result TransferParams
}.

(** [TezosToolkit]: the wallet, the signer and the RPC client of the
    account, and, for a toolkit built over the same [rpc] and bound to
    another signer, its contract and estimate providers. *)
Record TezosToolkit : Type := {
  wallet_pkh : handler string;
  wallet_at : string -> handler ContractAbstraction;
  signer_publicKey : handler string;
  signer_sign : string -> handler SignResult;
  rpc_packData : PackDataParams -> handler PackDataResponse;
  rpc_getChainId : handler string;
  contract_at : Signer -> string -> handler ContractAbstraction;
  estimate_batch : Signer -> list ParamsWithKind -> handler (list Estimate)
}.

(** The awaited calls. *)
Inductive call : Type :=
| WalletPkh
| WalletAt (contractAddress : string)
| ContractStorage (contractAddress : string)
| SignerPublicKey
| RpcPackData (unpacked : PackDataParams)
| RpcGetChainId
| SignerSign (payload : string)
| ContractAt (signer : Signer) (contractAddress : string)
| EstimateBatch (signer : Signer) (ops : list ParamsWithKind).

(** What a call resolved to. *)
Inductive response : Type :=
| RString (s : string)
| RContract (c : ContractAbstraction)
| RStorage (s : Storage)
| RPacked (p : PackDataResponse)
| RSigned (s : SignResult)
| REstimates (l : list Estimate).

(** One entry of the log: the call and how it settled. *)
Definition event : Type := (call * result response)%type.

Record state : Type := {
  world : W;
  log : list event
}.

(** A computation: from a state to a value or a thrown error, and the
    state it leaves. *)
Definition M (A : Type) : Type := state -> result A * state.

Definition ret {A} (a : A) : M A := fun s => (inr a, s).

Definition throw {A} (e : exn) : M A := fun s => (inl e, s).

Definition bind {A B} (m : M A) (k : A -> M B) : M B :=
  fun s =>
    match m s with
    | (inr a, s') => k a s'
    | (inl e, s') => (inl e, s')
    end.

(** A synchronous expression that may throw. *)
Definition lift {A} (r : result A) : M A :=
  match r with
  | inr a => ret a
  | inl e => throw e
  end.

(** [await] of a call: the handler runs on the world, the call and its
    outcome go to the end of the log, a rejection is thrown. *)
Definition await {A} (c : call) (h : handler A) (inj : A -> response)
    : M A :=
  fun s =>
    match h (world s) with
    | (inr a, w') =>
        (inr a, {| world := w'; log := log s ++ [(c, inr (inj a))] |})
    | (inl e, w') =>
        (inl e, {| world := w'; log := log s ++ [(c, inl e)] |})
    end.

Notation "x <- m ;; k" := (bind m (fun x => k))
  (at level 61, m at next level, right associativity).
Notation "' p <- m ;; k" := (bind m (fun x => let 'p := x in k))
  (at level 61, p pattern, m at next level, right associativity).

(** ** The module *)

(** [hex2buf] of the utilities and [blake2bHex(input, key, outlen)] of the
    hashing library. *)
Variable hex2buf : string -> result (list Byte.byte).
Variable blake2bHex : list Byte.byte -> option (list Byte.byte) -> N -> string.

Definition permitParamHash (tezos : TezosToolkit)
    (contract : ContractAbstraction) (entrypoint : string)
    (parameters : value) : M string :=
  args <- lift (spread parameters) ;;
  encoded <- lift (parameterSchema_Encode contract entrypoint args) ;;
  let unpacked :=
    {| data := encoded;
       type := parameterSchema_root_typeWithoutAnnotations contract |} in
  raw_packed <- await (RpcPackData unpacked) (rpc_packData tezos unpacked)
                  RPacked ;;
  buf <- lift (hex2buf (packed raw_packed)) ;;
  ret (blake2bHex buf None 32%N).

Definition createPermitPayload (tezos : TezosToolkit)
    (contractAddress entrypoint : string) (params : value)
    : M (string * string * string) :=
  contract <- await (WalletAt contractAddress)
                (wallet_at tezos contractAddress) RContract ;;
  storage <- await (ContractStorage (address contract)) (storage contract)
               RStorage ;;
  signerKey <- await SignerPublicKey (signer_publicKey tezos) RString ;;
  paramHash <- permitParamHash tezos contract entrypoint params ;;
  chainId <- await RpcGetChainId (rpc_getChainId tezos) RString ;;
  currentPermitCount <-
    match permit_counter storage with
    | Some counter => ret (toNumber counter)
    | None => throw "TypeError: storage.permit_counter is undefined"
    end ;;
  let unpacked :=
    getUnpackedUniques contractAddress chainId currentPermitCount paramHash in
  packed_ <- await (RpcPackData unpacked) (rpc_packData tezos unpacked)
               RPacked ;;
  ret (signerKey, packed packed_, paramHash).

Definition forgeTxAndParams (tezos : TezosToolkit) (params : ForgeTxParams)
    : M (value * PermitPick) :=
  from_ <- await WalletPkh (wallet_pkh tezos) RString ;;
  let transferParams := formTransferParams from_ RELAYER_ADDRESS params in
  '(pubkey, payload, hash) <-
    createPermitPayload tezos (tokenAddress params) "transfer"
      transferParams ;;
  signed <- await (SignerSign payload) (signer_sign tezos payload) RSigned ;;
  let permitParams :=
    {| pick_pubkey := pubkey; pick_signature := sig signed;
       pick_hash := hash |} in
  ret (transferParams, permitParams).

Definition estimator : Signer :=
  ReadOnlySigner ESTIMATOR_ADDRESS ESTIMATOR_PUBLIC_KEY.

Definition estimateAsBatch (tezos : TezosToolkit) (signer : Signer)
    (txs : list TransferParams) : M (list Estimate) :=
  let ops := map (fun tParams => {| kind := TRANSACTION; tParams := tParams |})
               txs in
  await (EstimateBatch signer ops) (estimate_batch tezos signer ops)
    REstimates.

Definition estimate (tezos : TezosToolkit) (permitParams : PermitParams)
    : M number :=
  let cp := callParams permitParams in
  contract <- await (ContractAt estimator (contractAddress permitParams))
                (contract_at tezos estimator (contractAddress permitParams))
                RContract ;;
  permit <- lift (methods contract "permit"
                    [VString (pubkey permitParams);
                     VString (signature permitParams);
                     VString (hash permitParams)]) ;;
  args <- lift (spread (params cp)) ;;
  feeTransfer <- lift (methods contract (entrypoint cp) args) ;;
  estimates <- estimateAsBatch tezos estimator [permit; feeTransfer] ;;
  ret (fold_left
         (fun totalEstimate est =>
            number_add totalEstimate (suggestedFeeMutez est))
         estimates (Finite 0)).

End Toolkit.

Arguments address {W} _.
Arguments storage {W} _ _.
Arguments parameterSchema_Encode {W} _ _ _.
Arguments parameterSchema_root_typeWithoutAnnotations {W} _.
Arguments methods {W} _ _ _.
Arguments wallet_pkh {W} _ _.
Arguments wallet_at {W} _ _ _.
Arguments signer_publicKey {W} _ _.
Arguments signer_sign {W} _ _ _.
Arguments rpc_packData {W} _ _ _.
Arguments rpc_getChainId {W} _ _.
Arguments contract_at {W} _ _ _ _.
Arguments estimate_batch {W} _ _ _ _.
Arguments RString {W} _.
Arguments RContract {W} _.
Arguments RStorage {W} _.
Arguments RPacked {W} _.
Arguments RSigned {W} _.
Arguments REstimates {W} _.
Arguments world {W} _.
Arguments log {W} _.
Arguments ret {W A} _ _.
Arguments throw {W A} _ _.
Arguments bind {W A B} _ _ _.
Arguments lift {W A} _ _.
Arguments await {W A} _ _ _ _.
Arguments permitParamHash {W} _ _ _ _ _ _ _.
Arguments createPermitPayload {W} _ _ _ _ _ _ _.
Arguments forgeTxAndParams {W} _ _ _ _ _.
Arguments estimateAsBatch {W} _ _ _ _.
Arguments estimate {W} _ _ _.

(** ** Reading a log *)

(** The kind of a call: which capability it goes to. *)
Inductive call_kind : Type :=
| KWalletPkh | KWalletAt | KContractStorage | KSignerPublicKey
| KRpcPackData | KRpcGetChainId | KSignerSign | KContractAt
| KEstimateBatch.

Definition kind_of (c : call) : call_kind :=
  match c with
  | WalletPkh => KWalletPkh
  | WalletAt _ => KWalletAt
  | ContractStorage _ => KContractStorage
  | SignerPublicKey => KSignerPublicKey
  | RpcPackData _ => KRpcPackData
  | RpcGetChainId => KRpcGetChainId
  | SignerSign _ => KSignerSign
  | ContractAt _ _ => KContractAt
  | EstimateBatch _ _ => KEstimateBatch
  end.

Definition kinds {W} (evs : list (event W)) : list call_kind :=
  map (fun ev => kind_of (fst ev)) evs.

(** The calls of one run of [forgeTxAndParams], in program order. *)
Definition forge_steps : list call_kind :=
  [KWalletPkh; KWalletAt; KContractStorage; KSignerPublicKey; KRpcPackData;
   KRpcGetChainId; KRpcPackData; KSignerSign].

(** A call on the signer capability: its public key or a signature. *)
Definition signer_call (c : call) : bool :=
  match c with
  | SignerPublicKey | SignerSign _ => true
  | _ => false
  end.

Definition resolved {W} (ev : event W) : bool :=
  match snd ev with
  | inr _ => true
  | inl _ => false
  end.

(** [l] is an initial segment of [l']. *)
Definition prefix {A} (l l' : list A) : Prop := exists rest, l' = l ++ rest.

(** A run is fail-stop when every call in its log resolved, except
    possibly the last one, and then the run threw what that call was
    rejected with. *)
Definition fail_stop {W A} (r : result A) (evs : list (event W)) : Prop :=
  Forall (fun ev => resolved ev = true) evs \/
  exists before c e,
    evs = before ++ [(c, inl e)] /\
    Forall (fun ev => resolved ev = true) before /\
    r = inl e.

(** [m] keeps to the schedule [ks]: from any state it only appends to the
    log, the calls it appends are the first calls of [ks], in order and
    each once, all of them when it returns a value, and it is fail-stop. *)
Definition keeps_schedule {W A} (m : M W A) (ks : list call_kind) : Prop :=
  forall s,
    exists evs,
      log (snd (m s)) = log s ++ evs /\
      prefix (kinds evs) ks /\
      fail_stop (fst (m s)) evs /\
      (forall a, fst (m s) = inr a ->
         kinds evs = ks /\ Forall (fun ev => resolved ev = true) evs).

(** The log of a run of [createPermitPayload] that returned: the contract
    [c] was fetched, its storage [st] read, the signer gave [key], the
    encoded arguments [encoded] were packed to [pk1], the chain id [chain]
    was read and the permit tuple, with the counter and the hash, was packed
    to [pk2]. *)
Definition permit_events {W} (contractAddress : string)
    (c : ContractAbstraction W) (st : Storage) (key : string)
    (encoded : Micheline) (pk1 : PackDataResponse) (chain : string)
    (counter : BigNumber) (hash : string) (pk2 : PackDataResponse)
    : list (event W) :=
  [(WalletAt contractAddress, inr (RContract c));
   (ContractStorage (address c), inr (RStorage st));
   (SignerPublicKey, inr (RString key));
   (RpcPackData
      {| data := encoded;
         type := parameterSchema_root_typeWithoutAnnotations c |},
    inr (RPacked pk1));
   (RpcGetChainId, inr (RString chain));
   (RpcPackData
      (getUnpackedUniques contractAddress chain (toNumber counter) hash),
    inr (RPacked pk2))].

(** The log of a run of [forgeTxAndParams] that returned. *)
Definition forge_events {W} (from_ contractAddress : string)
    (c : ContractAbstraction W) (st : Storage) (key : string)
    (encoded : Micheline) (pk1 : PackDataResponse) (chain : string)
    (counter : BigNumber) (hash : string) (pk2 : PackDataResponse)
    (signed : SignResult) : list (event W) :=
  (WalletPkh, inr (RString from_))
    :: permit_events contractAddress c st key encoded pk1 chain counter hash
         pk2
    ++ [(SignerSign (packed pk2), inr (RSigned signed))].

(** The calls of one run of [createPermitPayload] and of [estimate]. *)
Definition permit_steps : list call_kind :=
  [KWalletAt; KContractStorage; KSignerPublicKey; KRpcPackData;
   KRpcGetChainId; KRpcPackData].

Definition estimate_steps : list call_kind := [KContractAt; KEstimateBatch].

(** ** A test double *)

Module Double.

(** A serialisation of Micheline that keeps every leaf readable. *)
Fixpoint show (m : Micheline) : string :=
  let fix show_all (l : list Micheline) : string :=
    match l with
    | [] => ""
    | x :: rest => (show x ++ ";" ++ show_all rest)%string
    end in
  match m with
  | MPrim p None => p
  | MPrim p (Some args) => (p ++ "(" ++ show_all args ++ ")")%string
  | MString s => s
  | MInt i => i
  | MBytes b => b
  | MSeq items => ("{" ++ show_all items ++ "}")%string
  end.

(** A schema that encodes any argument tree. *)
Fixpoint encode (v : value) : Micheline :=
  let fix encode_fields (l : list (string * value)) : list Micheline :=
    match l with
    | [] => []
    | (_, x) :: rest => encode x :: encode_fields rest
    end in
  match v with
  | VUndefined => MPrim "Unit" None
  | VNumber n => MInt (toString n)
  | VString s => MString s
  | VArray items => MSeq (map encode items)
  | VObject fields => MPrim "Pair" (Some (encode_fields fields))
  end.

(** What the double is told to do: which kind of call to reject and with
    what, and the fees its estimation service answers with. *)
Record script : Type := {
  rejects : call_kind -> option exn;
  fees : list number
}.

Definition answer {A} (sc : script) (k : call_kind) (a : N -> A)
    : handler N A :=
  fun w =>
    match rejects sc k with
    | Some e => (inl e, w)
    | None => (inr (a w), w)
    end.

(** The world of the double is the permit counter the chain holds. *)
Definition contract (sc : script) (addr : string) : ContractAbstraction N :=
  {| address := addr;
     storage :=
       answer sc KContractStorage (fun w => {| permit_counter := Some w |});
     parameterSchema_Encode :=
       fun entrypoint args => inr (MPrim entrypoint (Some (map encode args)));
     parameterSchema_root_typeWithoutAnnotations := MPrim "parameter" None;
     methods :=
       fun entrypoint args =>
         inr {| tp_to := addr; tp_amount := Finite 0;
                tp_parameter := (entrypoint, MSeq (map encode args)) |} |}.

Definition toolkit (sc : script) : TezosToolkit N :=
  {| wallet_pkh := answer sc KWalletPkh (fun _ => "tz1alice");
     wallet_at := fun addr => answer sc KWalletAt (fun _ => contract sc addr);
     signer_publicKey := answer sc KSignerPublicKey (fun _ => "edpkalice");
     signer_sign :=
       fun payload =>
         answer sc KSignerSign
           (fun _ => {| bytes := payload;
                        sig := ("sig(" ++ payload ++ ")")%string;
                        prefixSig := ("edsig(" ++ payload ++ ")")%string;
                        sbytes := payload |});
     rpc_packData :=
       fun unpacked =>
         answer sc KRpcPackData
           (fun _ => {| packed := ("05" ++ show (data unpacked))%string;
                        gas := None |});
     rpc_getChainId := answer sc KRpcGetChainId (fun _ => "NetXdQprcVkpaWU");
     contract_at :=
       fun _ addr => answer sc KContractAt (fun _ => contract sc addr);
     estimate_batch :=
       fun _ _ =>
         answer sc KEstimateBatch
           (fun _ =>
              map (fun fee => {| suggestedFeeMutez := fee;
                                 gasLimit := Finite 0;
                                 storageLimit := Finite 0 |})
                (fees sc)) |}.

Definition hex2buf (hex : string) : result (list Byte.byte) :=
  inr (list_byte_of_string hex).

Definition blake2bHex (input : list Byte.byte)
    (key : option (list Byte.byte)) (outlen : N) : string :=
  ("blake2b" ++ decimal outlen ++ "<" ++ string_of_list_byte input ++ ">")
    %string.

Definition healthy : script :=
  {| rejects := fun _ => None; fees := [Finite 100; Finite 250] |}.

Definition same_kind (k k' : call_kind) : bool :=
  match k with
  | KWalletPkh => match k' with KWalletPkh => true | _ => false end
  | KWalletAt => match k' with KWalletAt => true | _ => false end
  | KContractStorage => match k' with KContractStorage => true | _ => false end
  | KSignerPublicKey => match k' with KSignerPublicKey => true | _ => false end
  | KRpcPackData => match k' with KRpcPackData => true | _ => false end
  | KRpcGetChainId => match k' with KRpcGetChainId => true | _ => false end
  | KSignerSign => match k' with KSignerSign => true | _ => false end
  | KContractAt => match k' with KContractAt => true | _ => false end
  | KEstimateBatch => match k' with KEstimateBatch => true | _ => false end
  end.

Definition failing (k : call_kind) (e : exn) (sc : script) : script :=
  {| rejects := fun k' => if same_kind k k' then Some e else rejects sc k';
     fees := fees sc |}.

Definition start (w : N) : state N := {| world := w; log := [] |}.

Definition transfer : ForgeTxParams :=
  {| to := "tz1bob"; tokenAddress := "KT1token"; tokenId := Some (Finite 0);
     amount := Finite 1000; relayerFee := Finite 7 |}.

(** A transfer of 1000 tokens to [tz1bob] with a fee of 7, forged while
    the chain holds permit counter 5. *)
Definition forged :=
  forgeTxAndParams hex2buf blake2bHex (toolkit healthy) transfer (start 5).

Definition batch : value :=
  formTransferParams "tz1alice" RELAYER_ADDRESS transfer.

Definition permit_at (s : state N) :=
  createPermitPayload hex2buf blake2bHex (toolkit healthy) "KT1token"
    "transfer" batch s.

(** The counter is 5 in a first call and 6 in a second one, made after
    the chain moved on. *)
Definition first_call := permit_at (start 5).

Definition second_call :=
  permit_at {| world := 6%N; log := log (snd first_call) |}.

(** The chain holds permit counter 2^53 + 1. *)
Definition late_call := permit_at (start 9007199254740993).

Definition request : PermitParams :=
  {| signature := "sig"; hash := "hash"; pubkey := "edpkalice";
     contractAddress := "KT1token";
     callParams := {| entrypoint := "transfer"; params := batch |} |}.

Definition estimated := estimate (toolkit healthy) request (start 5).

(** The node suggests fees of 2^53 and 1. *)
Definition costly : script :=
  {| rejects := fun _ => None;
     fees := [Finite 9007199254740992; Finite 1] |}.

Definition overestimated := estimate (toolkit costly) request (start 5).

(** A toolkit on which calls of kind [k] are refused. *)
Definition refusing (k : call_kind) : TezosToolkit N :=
  toolkit (failing k "refused" healthy).

Definition unkeyed :=
  forgeTxAndParams hex2buf blake2bHex (refusing KSignerPublicKey) transfer
    (start 5).

Definition unsigned :=
  forgeTxAndParams hex2buf blake2bHex (refusing KSignerSign) transfer
    (start 5).

Definition rejected := estimate (refusing KEstimateBatch) request (start 5).

End Double.

(** ** Doubles that fail locally *)

Module Faults.

Import Double.

(** The healthy toolkit, over contracts of one's own. *)
Definition with_contract (c : string -> ContractAbstraction N)
    : TezosToolkit N :=
  {| wallet_pkh := wallet_pkh (toolkit healthy);
     wallet_at := fun addr w => (inr (c addr), w);
     signer_publicKey := signer_publicKey (toolkit healthy);
     signer_sign := signer_sign (toolkit healthy);
     rpc_packData := rpc_packData (toolkit healthy);
     rpc_getChainId := rpc_getChainId (toolkit healthy);
     contract_at := fun _ addr w => (inr (c addr), w);
     estimate_batch := estimate_batch (toolkit healthy) |}.

(** A contract whose schema encodes nothing. *)
Definition unencodable (addr : string) : ContractAbstraction N :=
  {| address := addr;
     storage := storage (contract healthy addr);
     parameterSchema_Encode := fun _ _ => inl "EncodingError";
     parameterSchema_root_typeWithoutAnnotations :=
       parameterSchema_root_typeWithoutAnnotations (contract healthy addr);
     methods := methods (contract healthy addr) |}.

(** A contract whose storage has no [permit_counter]. *)
Definition uncounted (addr : string) : ContractAbstraction N :=
  {| address := addr;
     storage := fun w => (inr {| permit_counter := None |}, w);
     parameterSchema_Encode :=
       parameterSchema_Encode (contract healthy addr);
     parameterSchema_root_typeWithoutAnnotations :=
       parameterSchema_root_typeWithoutAnnotations (contract healthy addr);
     methods := methods (contract healthy addr) |}.

(** A contract without a [permit] entrypoint. *)
Definition permitless (addr : string) : ContractAbstraction N :=
  {| address := addr;
     storage := storage (contract healthy addr);
     parameterSchema_Encode :=
       parameterSchema_Encode (contract healthy addr);
     parameterSchema_root_typeWithoutAnnotations :=
       parameterSchema_root_typeWithoutAnnotations (contract healthy addr);
     methods :=
       fun entrypoint args =>
         if String.eqb entrypoint "permit"
         then inl "TypeError: contract.methods.permit is not a function"
         else methods (contract healthy addr) entrypoint args |}.

(** A node that answers with three estimates, the first for a reveal,
    and one that answers with none. *)
Definition revealing : script :=
  {| rejects := fun _ => None;
     fees := [Finite 374; Finite 100; Finite 250] |}.

Definition silent : script := {| rejects := fun _ => None; fees := [] |}.

Definition unencoded :=
  forgeTxAndParams hex2buf blake2bHex (with_contract unencodable) transfer
    (start 5).

Definition uncounted_run :=
  forgeTxAndParams hex2buf blake2bHex (with_contract uncounted) transfer
    (start 5).

Definition offline :=
  forgeTxAndParams hex2buf blake2bHex (refusing KRpcGetChainId) transfer
    (start 5).

(** What a wallet asks to be estimated after forging [forged]. *)
Definition forged_request (transferParams : value) (permit : PermitPick)
    : PermitParams :=
  {| signature := pick_signature permit; hash := pick_hash permit;
     pubkey := pick_pubkey permit; contractAddress := "KT1token";
     callParams :=
       {| entrypoint := "transfer"; params := transferParams |} |}.

End Faults.

(** * Proofs *)

(** ** Decimal rendering of numbers *)

Lemma round_double_exact (n : N) :
  (n < 2 ^ 53)%N -> round_double n = Finite n.
Proof.
  intros H. unfold round_double.
  apply N.ltb_lt in H. rewrite H. reflexivity.
Qed.

Lemma toString_exact (n : N) :
  (n <= 2 ^ 53)%N -> toString (Finite n) = decimal n.
Proof.
  intros H. unfold toString.
  apply N.leb_le in H. rewrite H. reflexivity.
Qed.

Lemma round_double_safe (n : N) :
  (n <= 2 ^ 53)%N -> round_double n = Finite n.
Proof.
  intros H. apply N.lt_eq_cases in H. destruct H as [H | ->].
  - apply round_double_exact. assumption.
  - vm_compute. reflexivity.
Qed.

Lemma toString_toNumber_safe (c : BigNumber) :
  (c <= 2 ^ 53)%N -> toString (toNumber c) = decimal c.
Proof.
  intros H. unfold toNumber. rewrite round_double_safe by assumption.
  apply toString_exact. assumption.
Qed.

(** Beyond 2^53 the conversion rounds and the printer keeps the shortest
    digits: the values a JavaScript engine gives. *)
Example toNumber_rounds_to_even :
  toNumber 9007199254740993%N = Finite 9007199254740992 /\
  toNumber 9007199254740995%N = Finite 9007199254740996 /\
  toNumber (10 ^ 23)%N = Finite 99999999999999991611392 /\
  toNumber (2 ^ 1024 - 2 ^ 970)%N = Infinity.
Proof. repeat split; vm_compute; reflexivity. Qed.

Example toString_shortest_digits :
  toString (toNumber (2 ^ 64)%N) = "18446744073709552000" /\
  toString (toNumber (10 ^ 21)%N) = "1e+21" /\
  toString (toNumber (10 ^ 23)%N) = "1e+23" /\
  toString (toNumber (2 ^ 70)%N) = "1.1805916207174113e+21" /\
  toString (toNumber (2 ^ 89)%N) = "6.189700196426902e+26" /\
  toString (toNumber (2 ^ 64 - 1)%N) = "18446744073709552000" /\
  toString (toNumber (2 ^ 1024 - 2 ^ 970 - 1)%N) = "1.7976931348623157e+308".
Proof. repeat split; vm_compute; reflexivity. Qed.

(** Below 2^53 the shortest digits are all the digits. *)
Example shortest_digits_of_safe_integers :
  shortest_digits 9007199254740991 16 = (9007199254740991%N, 0%nat) /\
  shortest_digits 350 3 = (35%N, 1%nat) /\
  shortest_digits 1000 4 = (1%N, 3%nat).
Proof. repeat split; vm_compute; reflexivity. Qed.

(** ** Rules for schedules *)

Section Schedules.

Context {W : Type}.

Lemma prefix_nil {A} (l : list A) : prefix [] l.
Proof. exists l. reflexivity. Qed.

Lemma prefix_refl {A} (l : list A) : prefix l l.
Proof. exists []. symmetry. apply app_nil_r. Qed.

Lemma prefix_app_r {A} (l l1 l2 : list A) :
  prefix l l1 -> prefix l (l1 ++ l2).
Proof.
  intros [rest ->]. exists (rest ++ l2). symmetry. apply app_assoc.
Qed.

Lemma prefix_app {A} (l l1 l2 : list A) :
  prefix l1 l2 -> prefix (l ++ l1) (l ++ l2).
Proof.
  intros [rest ->]. exists rest. apply app_assoc.
Qed.

Lemma kinds_app (l1 l2 : list (event W)) :
  kinds (l1 ++ l2) = kinds l1 ++ kinds l2.
Proof. apply map_app. Qed.

Lemma keeps_ret {A} (a : A) : keeps_schedule (W := W) (ret a) [].
Proof.
  intros s. exists []. simpl. rewrite app_nil_r.
  repeat split; auto using prefix_nil. left. constructor.
Qed.

Lemma keeps_throw {A} (e : exn) :
  keeps_schedule (W := W) (A := A) (throw e) [].
Proof.
  intros s. exists []. simpl. rewrite app_nil_r.
  repeat split; auto using prefix_nil; try discriminate. left. constructor.
Qed.

Lemma keeps_lift {A} (r : result A) : keeps_schedule (W := W) (lift r) [].
Proof.
  destruct r; [apply keeps_throw | apply keeps_ret].
Qed.

Lemma keeps_await {A} (c : call) (h : handler W A) (inj : A -> response W) :
  keeps_schedule (await c h inj) [kind_of c].
Proof.
  intros s. unfold await.
  destruct (h (world s)) as [[e | a] w'] eqn:Hh; simpl.
  - exists [(c, inl e)]. repeat split; auto using prefix_refl; try discriminate.
    right. exists [], c, e. repeat split. constructor.
  - exists [(c, inr (inj a))].
    split; [reflexivity | split; [apply prefix_refl | split]].
    + left. repeat constructor.
    + intros _ _. split; [reflexivity | repeat constructor].
Qed.

Lemma keeps_bind {A B} (m : M W A) (k : A -> M W B)
    (ks1 ks2 : list call_kind) :
  keeps_schedule m ks1 ->
  (forall a, keeps_schedule (k a) ks2) ->
  keeps_schedule (bind m k) (ks1 ++ ks2).
Proof.
  intros Hm Hk s. unfold bind.
  destruct (Hm s) as (evs1 & Hlog1 & Hpre1 & Hfs1 & Hok1).
  destruct (m s) as [[e | a] s1] eqn:Hms; simpl in *.
  - exists evs1. repeat split; auto using prefix_app_r; try discriminate.
    destruct Hfs1 as [Hall | (before & c & e' & -> & Hb & He)].
    + left. assumption.
    + right. exists before, c, e'. repeat split; auto. congruence.
  - destruct (Hok1 a eq_refl) as [Hk1 Hall1].
    destruct (Hk a s1) as (evs2 & Hlog2 & Hpre2 & Hfs2 & Hok2).
    exists (evs1 ++ evs2). split; [| split; [| split]].
    + rewrite Hlog2, Hlog1. symmetry. apply app_assoc.
    + rewrite kinds_app, Hk1. apply prefix_app. assumption.
    + destruct Hfs2 as [Hall | (before & c & e' & -> & Hb & He)].
      * left. apply Forall_app. split; assumption.
      * right. exists (evs1 ++ before), c, e'. repeat split.
        -- apply app_assoc.
        -- apply Forall_app. split; assumption.
        -- assumption.
    + intros b Hb. destruct (Hok2 b Hb) as [Hk2 Hall2]. split.
      * rewrite kinds_app, Hk1, Hk2. reflexivity.
      * apply Forall_app. split; assumption.
Qed.

End Schedules.

(** ** Inverting a run that returned *)

Section Inversion.

Context {W : Type}.

Lemma bind_inr {A B} (m : M W A) (k : A -> M W B) s b s' :
  bind m k s = (inr b, s') ->
  exists a s1, m s = (inr a, s1) /\ k a s1 = (inr b, s').
Proof.
  unfold bind. destruct (m s) as [[e | a] s1]; intros H.
  - discriminate.
  - exists a, s1. split; [reflexivity | assumption].
Qed.

Lemma ret_inr {A} (a b : A) (s s' : state W) :
  ret a s = (inr b, s') -> b = a /\ s' = s.
Proof. unfold ret. intros H. inversion H. split; reflexivity. Qed.

Lemma lift_inr {A} (r : result A) (s s' : state W) a :
  lift r s = (inr a, s') -> r = inr a /\ s' = s.
Proof.
  destruct r as [e | a0]; simpl; unfold throw, ret; intros H.
  - discriminate.
  - inversion H. split; reflexivity.
Qed.

Lemma await_inr {A} c (h : handler W A) inj s a s' :
  await c h inj s = (inr a, s') ->
  exists w',
    h (world s) = (inr a, w') /\
    s' = {| world := w'; log := log s ++ [(c, inr (inj a))] |}.
Proof.
  unfold await. destruct (h (world s)) as [[e | a0] w']; intros H.
  - discriminate.
  - inversion H. exists w'. split; reflexivity.
Qed.

Lemma await_inl {A} c (h : handler W A) inj s e s' :
  await c h inj s = (inl e, s') ->
  exists w',
    h (world s) = (inl e, w') /\
    s' = {| world := w'; log := log s ++ [(c, inl e)] |}.
Proof.
  unfold await. destruct (h (world s)) as [[e0 | a0] w']; intros H.
  - inversion H. exists w'. split; reflexivity.
  - discriminate.
Qed.

End Inversion.

(** One step of a run that returned: [H] says that [bind m k] returned;
    the step [m] returned some [x], and [H] goes on with [k x]. *)
Tactic Notation "awaited" hyp(H) "as" simple_intropattern(x) :=
  let s := fresh "s" in
  let w := fresh "w" in
  let Hx := fresh "Hx" in
  apply bind_inr in H; destruct H as (x & s & Hx & H);
  apply await_inr in Hx; destruct Hx as (w & _ & ->).

Tactic Notation "lifted" hyp(H) "as" simple_intropattern(x) ident(Hx) :=
  let s := fresh "s" in
  apply bind_inr in H; destruct H as (x & s & Hx & H);
  apply lift_inr in Hx; destruct Hx as [Hx ->].

Tactic Notation "returned" hyp(H) :=
  apply ret_inr in H; destruct H as [H ->].

Section Module_facts.

Context {W : Type}.
Variable hex2buf : string -> result (list Byte.byte).
Variable blake2bHex : list Byte.byte -> option (list Byte.byte) -> N -> string.

Lemma permitParamHash_inr (tezos : TezosToolkit W) contract entrypoint
    parameters s h s' :
  permitParamHash hex2buf blake2bHex tezos contract entrypoint parameters s
    = (inr h, s') ->
  exists args encoded raw_packed buf w',
    spread parameters = inr args /\
    parameterSchema_Encode contract entrypoint args = inr encoded /\
    rpc_packData tezos
      {| data := encoded;
         type := parameterSchema_root_typeWithoutAnnotations contract |}
      (world s) = (inr raw_packed, w') /\
    hex2buf (packed raw_packed) = inr buf /\
    h = blake2bHex buf None 32%N /\
    s' = {| world := w';
            log := log s ++
              [(RpcPackData
                  {| data := encoded;
                     type :=
                       parameterSchema_root_typeWithoutAnnotations contract |},
                inr (RPacked raw_packed))] |}.
Proof.
  unfold permitParamHash. intros H.
  lifted H as args Hsp.
  lifted H as encoded Henc.
  apply bind_inr in H. destruct H as (raw_packed & s1 & Hpack & H).
  apply await_inr in Hpack. destruct Hpack as (w' & Hpack & ->).
  lifted H as buf Hbuf.
  returned H.
  exists args, encoded, raw_packed, buf, w'.
  repeat split; assumption.
Qed.

Lemma createPermitPayload_inr (tezos : TezosToolkit W) contractAddress
    entrypoint params s key payload hash s' :
  createPermitPayload hex2buf blake2bHex tezos contractAddress entrypoint
    params s = (inr (key, payload, hash), s') ->
  exists c st args encoded pk1 buf chain counter pk2,
    spread params = inr args /\
    parameterSchema_Encode c entrypoint args = inr encoded /\
    hex2buf (packed pk1) = inr buf /\
    hash = blake2bHex buf None 32%N /\
    permit_counter st = Some counter /\
    payload = packed pk2 /\
    log s' = log s ++
      permit_events contractAddress c st key encoded pk1 chain counter hash
        pk2.
Proof.
  unfold createPermitPayload. intros H.
  awaited H as c.
  awaited H as st.
  awaited H as key'.
  apply bind_inr in H. destruct H as (h & s4 & Hhash & H).
  apply permitParamHash_inr in Hhash.
  destruct Hhash as (args & encoded & pk1 & buf & w4 & Hsp & Henc & _ & Hbuf
                     & -> & ->).
  awaited H as chain.
  apply bind_inr in H. destruct H as (n & s6 & Hn & H).
  destruct (permit_counter st) as [counter |] eqn:Hcounter;
    [| discriminate].
  apply ret_inr in Hn. destruct Hn as [-> ->].
  awaited H as pk2.
  returned H. injection H as -> -> ->.
  exists c, st, args, encoded, pk1, buf, chain, counter, pk2.
  repeat split; try assumption.
  cbn [log world]. unfold permit_events.
  repeat rewrite <- app_assoc. reflexivity.
Qed.

Lemma forgeTxAndParams_inr (tezos : TezosToolkit W) p s transferParams
    permitParams s' :
  forgeTxAndParams hex2buf blake2bHex tezos p s
    = (inr (transferParams, permitParams), s') ->
  exists from_ c st key args encoded pk1 buf chain counter pk2 signed,
    transferParams = formTransferParams from_ RELAYER_ADDRESS p /\
    spread transferParams = inr args /\
    parameterSchema_Encode c "transfer" args = inr encoded /\
    hex2buf (packed pk1) = inr buf /\
    permit_counter st = Some counter /\
    permitParams = {| pick_pubkey := key; pick_signature := sig signed;
                      pick_hash := blake2bHex buf None 32%N |} /\
    log s' = log s ++
      forge_events from_ (tokenAddress p) c st key encoded pk1 chain counter
        (blake2bHex buf None 32%N) pk2 signed.
Proof.
  unfold forgeTxAndParams. intros H.
  awaited H as from_.
  apply bind_inr in H. destruct H as ([[key payload] hash] & s2 & Hpermit & H).
  apply createPermitPayload_inr in Hpermit.
  destruct Hpermit as (c & st & args & encoded & pk1 & buf & chain & counter
                       & pk2 & Hsp & Henc & Hbuf & -> & Hcounter & -> & Hlog).
  awaited H as signed.
  returned H. injection H as -> ->.
  exists from_, c, st, key, args, encoded, pk1, buf, chain, counter, pk2,
    signed.
  repeat split; try assumption.
  cbn [log world] in *. rewrite Hlog. unfold forge_events.
  repeat rewrite <- app_assoc. reflexivity.
Qed.

Lemma estimate_inr (tezos : TezosToolkit W) permitParams s total s' :
  estimate tezos permitParams s = (inr total, s') ->
  exists c permit args feeTransfer estimates,
    methods c "permit"
      [VString (pubkey permitParams); VString (signature permitParams);
       VString (hash permitParams)] = inr permit /\
    spread (params (callParams permitParams)) = inr args /\
    methods c (entrypoint (callParams permitParams)) args = inr feeTransfer /\
    total = fold_left
              (fun totalEstimate est =>
                 number_add totalEstimate (suggestedFeeMutez est))
              estimates (Finite 0) /\
    log s' = log s ++
      [(ContractAt estimator (contractAddress permitParams),
        inr (RContract c));
       (EstimateBatch estimator
          [{| kind := TRANSACTION; tParams := permit |};
           {| kind := TRANSACTION; tParams := feeTransfer |}],
        inr (REstimates estimates))].
Proof.
  unfold estimate, estimateAsBatch. intros H.
  awaited H as c.
  lifted H as permit Hpermit.
  lifted H as args Hargs.
  lifted H as feeTransfer Hfee.
  awaited H as estimates.
  apply ret_inr in H. destruct H as [-> ->].
  exists c, permit, args, feeTransfer, estimates.
  repeat split; try assumption.
  cbn [log world map]. rewrite <- app_assoc. reflexivity.
Qed.

(** ** Schedules of the module's functions *)

Lemma permitParamHash_schedule (tezos : TezosToolkit W) contract entrypoint
    parameters :
  keeps_schedule
    (permitParamHash hex2buf blake2bHex tezos contract entrypoint parameters)
    [KRpcPackData].
Proof.
  unfold permitParamHash.
  change [KRpcPackData] with ([] ++ [] ++ [KRpcPackData] ++ [] ++ []).
  repeat (apply keeps_bind;
          [first [apply keeps_lift | apply keeps_await] | intros]).
  apply keeps_ret.
Qed.

Lemma createPermitPayload_schedule (tezos : TezosToolkit W) contractAddress
    entrypoint params :
  keeps_schedule
    (createPermitPayload hex2buf blake2bHex tezos contractAddress entrypoint
       params)
    permit_steps.
Proof.
  unfold createPermitPayload.
  change permit_steps with
    ([KWalletAt] ++ [KContractStorage] ++ [KSignerPublicKey]
       ++ [KRpcPackData] ++ [KRpcGetChainId] ++ [] ++ [KRpcPackData] ++ []).
  repeat (apply keeps_bind;
          [first [apply keeps_await | apply permitParamHash_schedule
                 | match goal with
                   | |- context [match ?x with _ => _ end] => destruct x
                   end; first [apply keeps_ret | apply keeps_throw] ]
          | intros]).
  apply keeps_ret.
Qed.

Lemma forgeTxAndParams_schedule (tezos : TezosToolkit W) p :
  keeps_schedule (forgeTxAndParams hex2buf blake2bHex tezos p) forge_steps.
Proof.
  unfold forgeTxAndParams.
  change forge_steps with ([KWalletPkh] ++ permit_steps ++ [KSignerSign] ++ []).
  apply keeps_bind; [apply keeps_await | intros from_].
  apply keeps_bind; [apply createPermitPayload_schedule | intros [[a b] c]].
  apply keeps_bind; [apply keeps_await | intros signed].
  apply keeps_ret.
Qed.

Lemma estimate_schedule (tezos : TezosToolkit W) permitParams :
  keeps_schedule (estimate tezos permitParams) estimate_steps.
Proof.
  unfold estimate, estimateAsBatch.
  change estimate_steps with
    ([KContractAt] ++ [] ++ [] ++ [] ++ [KEstimateBatch] ++ []).
  repeat (apply keeps_bind;
          [first [apply keeps_lift | apply keeps_await] | intros]).
  apply keeps_ret.
Qed.

End Module_facts.

(** ** Reading rejected calls off a fail-stop log *)

Section Logs.

Context {W : Type}.

Lemma In_kinds (c : call) (out : result (response W)) evs :
  In (c, out) evs -> In (kind_of c) (kinds evs).
Proof.
  intros H. unfold kinds.
  apply (in_map (fun ev : event W => kind_of (fst ev))) in H. exact H.
Qed.

Lemma prefix_In {A} (l l' : list A) x : prefix l l' -> In x l -> In x l'.
Proof.
  intros [rest ->] H. apply in_or_app. left. assumption.
Qed.

Lemma fail_stop_rejected {A} (r : result A) (evs : list (event W)) c e :
  fail_stop r evs ->
  In (c, inl e) evs ->
  r = inl e /\ exists before, evs = before ++ [(c, inl e)].
Proof.
  intros [Hall | (before & c' & e' & -> & Hb & ->)] Hin.
  - rewrite Forall_forall in Hall. apply Hall in Hin. discriminate.
  - apply in_app_or in Hin. destruct Hin as [Hin | [Heq | []]].
    + rewrite Forall_forall in Hb. apply Hb in Hin. discriminate.
    + injection Heq as -> ->. split; [reflexivity |].
      exists before. reflexivity.
Qed.

Lemma schedule_of_run {A} (m : M W A) ks s evs :
  keeps_schedule m ks ->
  log (snd (m s)) = log s ++ evs ->
  prefix (kinds evs) ks /\
  fail_stop (fst (m s)) evs /\
  (forall a, fst (m s) = inr a ->
     kinds evs = ks /\ Forall (fun ev => resolved ev = true) evs).
Proof.
  intros Hm Hlog.
  destruct (Hm s) as (evs' & Hlog' & Hrest).
  rewrite Hlog' in Hlog. apply app_inv_head in Hlog. subst evs'.
  exact Hrest.
Qed.

End Logs.


(** ** The shapes a log can take *)

Section Shapes.

Context {W : Type}.
Variable hex2buf : string -> result (list Byte.byte).
Variable blake2bHex : list Byte.byte -> option (list Byte.byte) -> N -> string.

(** The three ways a run of [forgeTxAndParams] can go: the address is
    refused, the permit payload is not built, or the payload is built and
    a signature is asked for. *)
Lemma forge_log_cases (tezos : TezosToolkit W) (p : ForgeTxParams) s evs :
  log (snd (forgeTxAndParams hex2buf blake2bHex tezos p s)) = log s ++ evs ->
  (exists e, evs = [(WalletPkh, inl e)]) \/
  (exists from_ evs1,
     evs = (WalletPkh, inr (RString from_)) :: evs1 /\
     prefix (kinds evs1) permit_steps) \/
  (exists from_ c st key encoded pk1 chain counter hash pk2 out,
     evs = (WalletPkh, inr (RString from_))
             :: permit_events (tokenAddress p) c st key encoded pk1 chain
                  counter hash pk2
             ++ [(SignerSign (packed pk2), out)] /\
     permit_counter st = Some counter).
Proof.
  unfold forgeTxAndParams. intros Hlog.
  unfold bind at 1 in Hlog.
  destruct (await WalletPkh (wallet_pkh tezos) RString s)
    as [[e | from_] s1] eqn:Hpkh.
  - apply await_inl in Hpkh. destruct Hpkh as (w1 & _ & ->).
    cbn [snd log] in Hlog. apply app_inv_head in Hlog. subst evs.
    left. exists e. reflexivity.
  - apply await_inr in Hpkh. destruct Hpkh as (w1 & _ & ->).
    unfold bind at 1 in Hlog.
    match type of Hlog with
    | context [createPermitPayload ?a ?b ?c ?d ?e ?f ?g] =>
        pose proof (createPermitPayload_schedule hex2buf blake2bHex c d e f g)
          as Hsched;
        destruct (createPermitPayload a b c d e f g)
          as [[e1 | [[key payload] hash]] s2] eqn:Hpermit
    end.
    + destruct Hsched as (evs1 & Hlog1 & Hpre & _).
      cbn [snd fst log world] in *.
      rewrite Hlog1, <- app_assoc in Hlog. apply app_inv_head in Hlog.
      subst evs. right. left. exists from_, evs1. split; [reflexivity |].
      assumption.
    + clear Hsched. apply createPermitPayload_inr in Hpermit.
      destruct Hpermit as (c & st & args & encoded & pk1 & buf & chain
                           & counter & pk2 & _ & _ & _ & _ & Hcounter & ->
                           & Hlog2).
      right. right.
      unfold bind, await, ret in Hlog.
      destruct (signer_sign tezos (packed pk2) (world s2))
        as [[e3 | signed] w3];
        cbn [snd fst log world] in *;
        rewrite Hlog2 in Hlog; repeat rewrite <- app_assoc in Hlog;
        apply app_inv_head in Hlog; subst evs;
        eexists from_, c, st, key, encoded, pk1, chain, counter, hash, pk2, _;
        (split; [reflexivity | assumption]).
Qed.

(** The two ways a run of [estimate] can go: it stops before any batch
    is submitted, or the contract was fetched, both calls were built and
    one batch of the two was submitted. *)
Lemma estimate_log_cases (tezos : TezosToolkit W) permitParams s evs :
  log (snd (estimate tezos permitParams s)) = log s ++ evs ->
  (exists out,
     evs = [(ContractAt estimator (contractAddress permitParams), out)]) \/
  (exists c permit args feeTransfer out,
     methods c "permit"
       [VString (pubkey permitParams); VString (signature permitParams);
        VString (hash permitParams)] = inr permit /\
     spread (params (callParams permitParams)) = inr args /\
     methods c (entrypoint (callParams permitParams)) args
       = inr feeTransfer /\
     evs = [(ContractAt estimator (contractAddress permitParams),
             inr (RContract c));
            (EstimateBatch estimator
               [{| kind := TRANSACTION; tParams := permit |};
                {| kind := TRANSACTION; tParams := feeTransfer |}],
             out)]).
Proof.
  unfold estimate, estimateAsBatch, bind, await, lift, ret, throw.
  destruct (contract_at tezos estimator (contractAddress permitParams)
              (world s)) as [[e | c] w1]; cbn [snd log world].
  - intros H. apply app_inv_head in H. subst evs. left. eexists. reflexivity.
  - destruct (methods c "permit" _) as [e | permit] eqn:Hpermit;
      cbn [snd log world];
      [intros H; apply app_inv_head in H; subst evs; left; eexists;
       reflexivity |].
    destruct (spread _) as [e | args] eqn:Hargs; cbn [snd log world];
      [intros H; apply app_inv_head in H; subst evs; left; eexists;
       reflexivity |].
    destruct (methods c (entrypoint _) args) as [e | feeTransfer] eqn:Hfee;
      cbn [snd log world];
      [intros H; apply app_inv_head in H; subst evs; left; eexists;
       reflexivity |].
    destruct (estimate_batch tezos estimator _ w1) as [[e | estimates] w2];
      cbn [snd log world map]; intros H; rewrite <- app_assoc in H;
      apply app_inv_head in H; subst evs; right;
      eexists c, permit, args, feeTransfer, _;
      repeat split; assumption.
Qed.

End Shapes.

(** * The claims *)

Section Claims.

Context {W : Type}.
Variable hex2buf : string -> result (list Byte.byte).
Variable blake2bHex : list Byte.byte -> option (list Byte.byte) -> N -> string.

(** C1. The hash in the permit that [forgeTxAndParams] returns is computed
    over the very [transferParams] returned with it: the run fetched the
    token contract [c], encoded the returned [transferParams] as the
    arguments of its [transfer] entrypoint, packed that encoding with the
    schema's type, and the returned hash is the 32-byte blake2b digest of
    the packed bytes. *)
Theorem forge_hash_covers_returned_params (tezos : TezosToolkit W)
    (p : ForgeTxParams) (s : state W) transferParams permitParams s' :
  forgeTxAndParams hex2buf blake2bHex tezos p s
    = (inr (transferParams, permitParams), s') ->
  exists evs c args encoded raw_packed buf,
    log s' = log s ++ evs /\
    In (WalletAt (tokenAddress p), inr (RContract c)) evs /\
    spread transferParams = inr args /\
    parameterSchema_Encode c "transfer" args = inr encoded /\
    In (RpcPackData
          {| data := encoded;
             type := parameterSchema_root_typeWithoutAnnotations c |},
        inr (RPacked raw_packed)) evs /\
    hex2buf (packed raw_packed) = inr buf /\
    pick_hash permitParams = blake2bHex buf None 32%N.
Proof.
  intros H. apply forgeTxAndParams_inr in H.
  destruct H as (from_ & c & st & key & args & encoded & pk1 & buf & chain
                 & counter & pk2 & signed & -> & Hsp & Henc & Hbuf & _ & ->
                 & Hlog).
  eexists _, c, args, encoded, pk1, buf.
  split; [exact Hlog |].
  unfold forge_events, permit_events.
  repeat split; try assumption; simpl; tauto.
Qed.

(** C2 (as amended). For a permit counter up to 2^53, what is packed and
    then signed is the pair
    [((contractAddress, chainId), (permitCounter, hash))] of type
    [pair (pair address chain_id) (pair nat bytes)]: the address and the
    chain id as strings, the counter as an int holding its decimal digits
    and the hash as bytes.  In every run of [forgeTxAndParams] a signature
    is only ever asked over what the RPC packed the tuple to, built from
    the chain id and the counter the run read. *)
Theorem signed_bytes_pack_the_permit_pair :
  (forall contractAddress chainId (permitCounter : N) permitHash,
     (permitCounter <= 2 ^ 53)%N ->
     getUnpackedUniques contractAddress chainId (Finite permitCounter)
       permitHash
     = {| data :=
            MPrim "Pair"
              (Some [MPrim "Pair"
                       (Some [MString contractAddress; MString chainId]);
                     MPrim "Pair"
                       (Some [MInt (decimal permitCounter);
                              MBytes permitHash])]);
          type :=
            MPrim "pair"
              (Some [MPrim "pair"
                       (Some [MPrim "address" None; MPrim "chain_id" None]);
                     MPrim "pair"
                       (Some [MPrim "nat" None; MPrim "bytes" None])]) |}) /\
  (forall (tezos : TezosToolkit W) (p : ForgeTxParams) (s : state W) evs
          payload out,
     log (snd (forgeTxAndParams hex2buf blake2bHex tezos p s))
       = log s ++ evs ->
     In (SignerSign payload, out) evs ->
     exists (c : ContractAbstraction W) st counter chain hash pk,
       In (ContractStorage (address c), inr (RStorage st)) evs /\
       permit_counter st = Some counter /\
       In (RpcGetChainId, inr (RString chain)) evs /\
       In (RpcPackData
             (getUnpackedUniques (tokenAddress p) chain (toNumber counter)
                hash),
           inr (RPacked pk)) evs /\
       payload = packed pk /\
       ((counter <= 2 ^ 53)%N ->
        getUnpackedUniques (tokenAddress p) chain (toNumber counter) hash
        = {| data :=
               MPrim "Pair"
                 (Some [MPrim "Pair"
                          (Some [MString (tokenAddress p); MString chain]);
                        MPrim "Pair"
                          (Some [MInt (decimal counter); MBytes hash])]);
             type :=
               MPrim "pair"
                 (Some [MPrim "pair"
                          (Some [MPrim "address" None;
                                 MPrim "chain_id" None]);
                        MPrim "pair"
                          (Some [MPrim "nat" None;
                                 MPrim "bytes" None])]) |})).
Proof.
  split.
  { intros contractAddress chainId permitCounter permitHash Hsafe.
    unfold getUnpackedUniques. rewrite toString_exact by assumption.
    reflexivity. }
  intros tezos p s evs payload out Hlog Hin.
  apply forge_log_cases in Hlog.
  destruct Hlog as [(e & ->) | [(from_ & evs1 & -> & Hpre) | Hok]].
  - destruct Hin as [Hin | []]. discriminate.
  - destruct Hin as [Hin | Hin]; [discriminate |].
    apply In_kinds in Hin. apply (prefix_In _ _ _ Hpre) in Hin.
    simpl in Hin. repeat (destruct Hin as [Hin | Hin]; [discriminate |]).
    contradiction.
  - destruct Hok as (from_ & c & st & key & encoded & pk1 & chain & counter
                     & hash & pk2 & out' & -> & Hcounter).
    exists c, st, counter, chain, hash, pk2.
    unfold permit_events in *. simpl in Hin.
    repeat (destruct Hin as [Hin | Hin]; [try discriminate |]);
      [| contradiction].
    injection Hin as <- _.
    split; [simpl; tauto |]. split; [assumption |].
    split; [simpl; tauto |]. split; [simpl; tauto |].
    split; [reflexivity |].
    intros Hsafe. unfold getUnpackedUniques.
    rewrite toString_toNumber_safe by assumption. reflexivity.
Qed.

(** C3. The batch built for a source address and a transfer is an array
    holding one array holding one group [{from_, txs}]; its [txs] are
    exactly two legs with the same token id, the first sending [amount] to
    the destination and the second sending [relayerFee] to the fixed
    relayer address. *)
Theorem transfer_batch_two_legs (from_ : string) (p : ForgeTxParams) :
  exists intendedTx feeTx,
    formTransferParams from_ RELAYER_ADDRESS p
      = VArray [VArray [VObject [("from_", VString from_);
                                 ("txs", VArray [intendedTx; feeTx])]]] /\
    get "to_" intendedTx = VString (to p) /\
    get "amount" intendedTx = VNumber (amount p) /\
    get "to_" feeTx = VString RELAYER_ADDRESS /\
    get "amount" feeTx = VNumber (relayerFee p) /\
    get "token_id" intendedTx = optional (tokenId p) /\
    get "token_id" feeTx = get "token_id" intendedTx.
Proof.
  unfold formTransferParams. eexists _, _.
  split; [reflexivity |]. repeat split.
Qed.

(** C4. [permitParamHash] returns a hash exactly when the arguments
    spread and encode under the contract's schema, the RPC packs the
    encoding with the schema's annotation-free type and the packed hex
    decodes to bytes; it then issues that one packing call and returns
    the 32-byte blake2b digest of those bytes. *)
Theorem permit_hash_is_digest_of_packed_encoding (tezos : TezosToolkit W)
    (contract : ContractAbstraction W) (entrypoint : string)
    (parameters : value) (s : state W) (h : string) (s' : state W) :
  permitParamHash hex2buf blake2bHex tezos contract entrypoint parameters s
    = (inr h, s')
  <->
  exists args encoded raw_packed buf w',
    spread parameters = inr args /\
    parameterSchema_Encode contract entrypoint args = inr encoded /\
    rpc_packData tezos
      {| data := encoded;
         type := parameterSchema_root_typeWithoutAnnotations contract |}
      (world s) = (inr raw_packed, w') /\
    hex2buf (packed raw_packed) = inr buf /\
    h = blake2bHex buf None 32%N /\
    s' = {| world := w';
            log := log s ++
              [(RpcPackData
                  {| data := encoded;
                     type :=
                       parameterSchema_root_typeWithoutAnnotations contract |},
                inr (RPacked raw_packed))] |}.
Proof.
  split.
  - apply permitParamHash_inr.
  - intros (args & encoded & raw_packed & buf & w' & Hsp & Henc & Hpack
            & Hbuf & -> & ->).
    unfold permitParamHash, bind, await.
    rewrite Hsp. simpl. rewrite Henc. simpl. rewrite Hpack.
    rewrite Hbuf. reflexivity.
Qed.

(** C5 (as amended). Whatever happened before the call, a run of
    [createPermitPayload] that returns has read the contract's storage
    itself, and the pair it packed carries the counter of that read: for
    a counter up to 2^53 the int of the pair is the counter, digit for
    digit. *)
Theorem permit_counter_is_the_one_just_read (tezos : TezosToolkit W)
    (contractAddress entrypoint : string) (params : value) (s : state W)
    key payload hash s' :
  createPermitPayload hex2buf blake2bHex tezos contractAddress entrypoint
    params s = (inr (key, payload, hash), s') ->
  exists c st counter encoded pk1 chain pk2,
    log s' = log s ++
      permit_events contractAddress c st key encoded pk1 chain counter hash
        pk2 /\
    permit_counter st = Some counter /\
    payload = packed pk2 /\
    ((counter <= 2 ^ 53)%N ->
     data (getUnpackedUniques contractAddress chain (toNumber counter) hash)
     = MPrim "Pair"
         (Some [MPrim "Pair"
                  (Some [MString contractAddress; MString chain]);
                MPrim "Pair"
                  (Some [MInt (decimal counter); MBytes hash])])).
Proof.
  intros H. apply createPermitPayload_inr in H.
  destruct H as (c & st & args & encoded & pk1 & buf & chain & counter & pk2
                 & _ & _ & _ & _ & Hcounter & Hpayload & Hlog).
  exists c, st, counter, encoded, pk1, chain, pk2.
  repeat split; try assumption.
  intros Hsafe. unfold getUnpackedUniques. cbn [data].
  rewrite toString_toNumber_safe by assumption. reflexivity.
Qed.

(** C6 (as amended). A batch that [estimate] submits is the only one of
    its run and holds exactly two transactions, simulated under the
    estimator identity: the contract's [permit] call on
    [(pubkey, signature, hash)] and the target entrypoint on the original
    arguments.  When it resolves to the two operations' estimates, the
    result is the sum of the two suggested fees: their exact sum as long
    as that does not exceed 2^53 (100 and 250 give 350). *)
Theorem estimate_sums_the_two_fees (tezos : TezosToolkit W)
    (permitParams : PermitParams) (s : state W) :
  (forall evs signer ops out,
     log (snd (estimate tezos permitParams s)) = log s ++ evs ->
     In (EstimateBatch signer ops, out) evs ->
     exists c permit args feeTransfer,
       methods c "permit"
         [VString (pubkey permitParams); VString (signature permitParams);
          VString (hash permitParams)] = inr permit /\
       spread (params (callParams permitParams)) = inr args /\
       methods c (entrypoint (callParams permitParams)) args
         = inr feeTransfer /\
       signer = estimator /\
       ops = [{| kind := TRANSACTION; tParams := permit |};
              {| kind := TRANSACTION; tParams := feeTransfer |}] /\
       evs = [(ContractAt estimator (contractAddress permitParams),
               inr (RContract c));
              (EstimateBatch signer ops, out)]) /\
  (forall c w1 permit args feeTransfer e1 e2 a b w2,
     contract_at tezos estimator (contractAddress permitParams) (world s)
       = (inr c, w1) ->
     methods c "permit"
       [VString (pubkey permitParams); VString (signature permitParams);
        VString (hash permitParams)] = inr permit ->
     spread (params (callParams permitParams)) = inr args ->
     methods c (entrypoint (callParams permitParams)) args
       = inr feeTransfer ->
     estimate_batch tezos estimator
       [{| kind := TRANSACTION; tParams := permit |};
        {| kind := TRANSACTION; tParams := feeTransfer |}] w1
       = (inr [e1; e2], w2) ->
     suggestedFeeMutez e1 = Finite a ->
     suggestedFeeMutez e2 = Finite b ->
     (a + b <= 2 ^ 53)%N ->
     estimate tezos permitParams s
     = (inr (Finite (a + b)),
        {| world := w2;
           log := log s ++
             [(ContractAt estimator (contractAddress permitParams),
               inr (RContract c));
              (EstimateBatch estimator
                 [{| kind := TRANSACTION; tParams := permit |};
                  {| kind := TRANSACTION; tParams := feeTransfer |}],
               inr (REstimates [e1; e2]))] |})).
Proof.
  split.
  - intros evs signer ops out Hlog Hin.
    apply estimate_log_cases in Hlog.
    destruct Hlog as [(out0 & ->)
                     | (c & permit & args & feeTransfer & out' & Hpermit
                        & Hargs & Hfee & ->)].
    + destruct Hin as [Hin | []]. discriminate.
    + destruct Hin as [Hin | [Hin | []]]; [discriminate |].
      injection Hin as <- <- <-.
      exists c, permit, args, feeTransfer. repeat split; assumption.
  - intros c w1 permit args feeTransfer e1 e2 a b w2
      Hat Hpermit Hargs Hfee Hbatch Ha Hb Hsum.
    unfold estimate, estimateAsBatch, bind, await.
    rewrite Hat, Hpermit. cbn [lift ret]. rewrite Hargs. cbn [lift ret].
    rewrite Hfee. cbn [lift ret world map]. rewrite Hbatch.
    cbn [fold_left]. rewrite Ha, Hb. unfold number_add.
    rewrite N.add_0_l.
    rewrite (round_double_safe a) by lia.
    rewrite (round_double_safe (a + b)) by assumption.
    cbn [log]. rewrite <- app_assoc. reflexivity.
Qed.

(** C7. In a run of [forgeTxAndParams], a call on the signer (its public
    key or a signature) that is rejected with [e] is the last call of the
    run, and the run throws [e] itself. *)
Theorem signer_rejection_stops_the_run (tezos : TezosToolkit W)
    (p : ForgeTxParams) (s : state W) evs c e :
  log (snd (forgeTxAndParams hex2buf blake2bHex tezos p s)) = log s ++ evs ->
  signer_call c = true ->
  In (c, inl e) evs ->
  fst (forgeTxAndParams hex2buf blake2bHex tezos p s) = inl e /\
  exists before, evs = before ++ [(c, inl e)].
Proof.
  intros Hlog _ Hin.
  destruct (schedule_of_run _ _ _ _
              (forgeTxAndParams_schedule hex2buf blake2bHex tezos p) Hlog)
    as (_ & Hfs & _).
  exact (fail_stop_rejected _ _ _ _ Hfs Hin).
Qed.

(** C8. When the batch simulation is rejected with [e], [estimate] throws
    [e] and returns no number; it returns a total only after the batch
    resolved, and then the total is over all the estimates of the batch. *)
Theorem estimate_has_no_partial_sum (tezos : TezosToolkit W)
    (permitParams : PermitParams) (s : state W) evs :
  log (snd (estimate tezos permitParams s)) = log s ++ evs ->
  (forall signer ops e,
     In (EstimateBatch signer ops, inl e) evs ->
     fst (estimate tezos permitParams s) = inl e /\
     exists before, evs = before ++ [(EstimateBatch signer ops, inl e)]) /\
  (forall total,
     fst (estimate tezos permitParams s) = inr total ->
     exists c ops estimates,
       evs = [(ContractAt estimator (contractAddress permitParams),
               inr (RContract c));
              (EstimateBatch estimator ops, inr (REstimates estimates))] /\
       total = fold_left
                 (fun totalEstimate est =>
                    number_add totalEstimate (suggestedFeeMutez est))
                 estimates (Finite 0)).
Proof.
  intros Hlog. split.
  - intros signer ops e Hin.
    destruct (schedule_of_run _ _ _ _ (estimate_schedule tezos permitParams)
                Hlog) as (_ & Hfs & _).
    exact (fail_stop_rejected _ _ _ _ Hfs Hin).
  - intros total Hok.
    destruct (estimate tezos permitParams s) as [r s'] eqn:Hrun.
    cbn [fst snd] in *. subst r.
    apply estimate_inr in Hrun.
    destruct Hrun as (c & permit & args & feeTransfer & estimates & _ & _ & _
                      & -> & Hlog').
    rewrite Hlog' in Hlog. apply app_inv_head in Hlog. subst evs.
    eexists c, _, estimates. split; reflexivity.
Qed.

(** C9. A run of [forgeTxAndParams] makes its calls in program order, each
    once and each after the one before it settled, and stops at the first
    that is rejected: the address, the contract, the storage read, the
    public key, the packing of the arguments, the chain id, the packing
    of the permit tuple, the signature.  When it returns, all eight were
    made: the tuple that was packed holds the counter and the chain id
    read before it, the signature was asked over what the packing gave,
    and the permit returned holds what the signer answered. *)
Theorem forge_steps_are_sequential (tezos : TezosToolkit W)
    (p : ForgeTxParams) :
  keeps_schedule (forgeTxAndParams hex2buf blake2bHex tezos p) forge_steps /\
  forall s transferParams permitParams s',
    forgeTxAndParams hex2buf blake2bHex tezos p s
      = (inr (transferParams, permitParams), s') ->
    exists from_ c st encoded pk1 chain counter pk2 signed,
      log s' = log s ++
        forge_events from_ (tokenAddress p) c st (pick_pubkey permitParams)
          encoded pk1 chain counter (pick_hash permitParams) pk2 signed /\
      permit_counter st = Some counter /\
      pick_signature permitParams = sig signed.
Proof.
  split; [apply forgeTxAndParams_schedule |].
  intros s transferParams permitParams s' H.
  apply forgeTxAndParams_inr in H.
  destruct H as (from_ & c & st & key & args & encoded & pk1 & buf & chain
                 & counter & pk2 & signed & _ & _ & _ & _ & Hcounter & ->
                 & Hlog).
  exists from_, c, st, encoded, pk1, chain, counter, pk2, signed.
  cbn [pick_pubkey pick_hash pick_signature].
  repeat split; assumption.
Qed.

(** C10. The relayer credited by the fee leg and the identity under which
    fees are simulated are one account: the two constants are the same
    address, and the fee leg of every batch [forgeTxAndParams] returns is
    addressed to it.  Every run of [estimate] starts by fetching the
    contract under that identity and calls nothing else but one batch
    simulation under it; and once the contract is fetched and both calls
    are built, the batch is simulated under it. *)
Theorem relayer_is_the_estimator :
  RELAYER_ADDRESS = "tz1VSUr8wwNhLAzempoch5d6hLRiTh8Cjcjb" /\
  ESTIMATOR_ADDRESS = RELAYER_ADDRESS /\
  signer_address estimator = ESTIMATOR_ADDRESS /\
  (forall (tezos : TezosToolkit W) p s transferParams permitParams s',
     forgeTxAndParams hex2buf blake2bHex tezos p s
       = (inr (transferParams, permitParams), s') ->
     get "to_" (fee_leg transferParams)
     = VString (signer_address estimator)) /\
  (forall (tezos : TezosToolkit W) permitParams s evs c out,
     log (snd (estimate tezos permitParams s)) = log s ++ evs ->
     In (c, out) evs ->
     exists signer,
       signer_address signer = RELAYER_ADDRESS /\
       (c = ContractAt signer (contractAddress permitParams) \/
        exists ops, c = EstimateBatch signer ops)) /\
  (forall (tezos : TezosToolkit W) permitParams s,
     exists signer out rest,
       signer_address signer = RELAYER_ADDRESS /\
       log (snd (estimate tezos permitParams s))
       = log s ++ (ContractAt signer (contractAddress permitParams), out)
                    :: rest /\
       (rest = [] \/
        exists ops out', rest = [(EstimateBatch signer ops, out')])) /\
  (forall (tezos : TezosToolkit W) permitParams s c w1 permit args
          feeTransfer,
     contract_at tezos estimator (contractAddress permitParams) (world s)
       = (inr c, w1) ->
     methods c "permit"
       [VString (pubkey permitParams); VString (signature permitParams);
        VString (hash permitParams)] = inr permit ->
     spread (params (callParams permitParams)) = inr args ->
     methods c (entrypoint (callParams permitParams)) args
       = inr feeTransfer ->
     exists signer out,
       signer_address signer = RELAYER_ADDRESS /\
       log (snd (estimate tezos permitParams s))
       = log s ++
           [(ContractAt signer (contractAddress permitParams),
             inr (RContract c));
            (EstimateBatch signer
               [{| kind := TRANSACTION; tParams := permit |};
                {| kind := TRANSACTION; tParams := feeTransfer |}],
             out)]).
Proof.
  split; [reflexivity |]. split; [reflexivity |]. split; [reflexivity |].
  split; [| split; [| split]].
  - intros tezos p s transferParams permitParams s' H.
    apply forgeTxAndParams_inr in H.
    destruct H as (from_ & c & st & key & args & encoded & pk1 & buf & chain
                   & counter & pk2 & signed & -> & _).
    reflexivity.
  - intros tezos permitParams s evs c out Hlog Hin.
    apply estimate_log_cases in Hlog.
    exists estimator. split; [reflexivity |].
    destruct Hlog as [(out0 & ->)
                     | (c0 & permit & args & feeTransfer & out' & _ & _ & _
                        & ->)].
    + destruct Hin as [Hin | []]. injection Hin as <- _. left. reflexivity.
    + destruct Hin as [Hin | [Hin | []]].
      * injection Hin as <- _. left. reflexivity.
      * injection Hin as <- _. right. eexists. reflexivity.
  - intros tezos permitParams s.
    destruct (estimate_schedule tezos permitParams s)
      as (evs & Hlog & _).
    pose proof (estimate_log_cases _ _ _ _ Hlog) as Hcases.
    exists estimator.
    destruct Hcases as [(out0 & ->)
                       | (c0 & permit & args & feeTransfer & out' & _ & _ & _
                          & ->)].
    + exists out0, []. split; [reflexivity |].
      split; [exact Hlog | left; reflexivity].
    + eexists _, _. split; [reflexivity |].
      split; [exact Hlog |]. right. eexists _, _. reflexivity.
  - intros tezos permitParams s c w1 permit args feeTransfer
      Hat Hpermit Hargs Hfee.
    exists estimator.
    unfold estimate, estimateAsBatch, bind, await.
    rewrite Hat, Hpermit. cbn [lift ret]. rewrite Hargs. cbn [lift ret].
    rewrite Hfee. cbn [lift ret world map log].
    destruct (estimate_batch tezos estimator _ w1) as [[e | estimates] w2];
      cbn [snd log]; eexists; (split; [reflexivity |]);
      rewrite <- app_assoc; reflexivity.
Qed.

End Claims.

(** * The claims on the test double *)

Module Runs.

Import Double.

Lemma outcome {A B} (run : A * B) (r : A) : fst run = r -> run = (r, snd run).
Proof. intros <-. destruct run. reflexivity. Defined.

Lemma forged_returns : exists r, forged = (inr r, snd forged).
Proof. eexists. apply outcome. vm_compute. reflexivity. Defined.

Example forged_permit :
  fst forged
  = inr (batch,
         {| pick_pubkey := "edpkalice";
            pick_signature :=
              "sig(05Pair(Pair(KT1token;NetXdQprcVkpaWU;);Pair(5;blake2b32<05transfer({Pair(tz1alice;{Pair(tz1bob;0;1000;);Pair(tz1VSUr8wwNhLAzempoch5d6hLRiTh8Cjcjb;0;7;);};);};)>;);))";
            pick_hash :=
              "blake2b32<05transfer({Pair(tz1alice;{Pair(tz1bob;0;1000;);Pair(tz1VSUr8wwNhLAzempoch5d6hLRiTh8Cjcjb;0;7;);};);};)>" |}).
Proof. vm_compute. reflexivity. Qed.

Example forged_calls : kinds (log (snd forged)) = forge_steps.
Proof. vm_compute. reflexivity. Qed.

Lemma forge_hash_covers_returned_params_witness :
  exists transferParams permitParams,
    forged = (inr (transferParams, permitParams), snd forged) /\
    exists evs c args encoded raw_packed buf,
      log (snd forged) = log (start 5) ++ evs /\
      In (WalletAt (tokenAddress transfer), inr (RContract c)) evs /\
      spread transferParams = inr args /\
      parameterSchema_Encode c "transfer" args = inr encoded /\
      In (RpcPackData
            {| data := encoded;
               type := parameterSchema_root_typeWithoutAnnotations c |},
          inr (RPacked raw_packed)) evs /\
      hex2buf (packed raw_packed) = inr buf /\
      pick_hash permitParams = blake2bHex buf None 32%N.
Proof.
  destruct forged_returns as ([transferParams permitParams] & H).
  exists transferParams, permitParams. split; [exact H |].
  exact (forge_hash_covers_returned_params hex2buf blake2bHex
           (toolkit healthy) transfer (start 5) _ _ _ H).
Defined.

Lemma signed_bytes_pack_the_permit_pair_witness :
  ((5 <= 2 ^ 53)%N /\
   getUnpackedUniques "KT1token" "NetXdQprcVkpaWU" (Finite 5) "hash"
   = {| data :=
          MPrim "Pair"
            (Some [MPrim "Pair"
                     (Some [MString "KT1token"; MString "NetXdQprcVkpaWU"]);
                   MPrim "Pair" (Some [MInt (decimal 5); MBytes "hash"])]);
        type :=
          MPrim "pair"
            (Some [MPrim "pair"
                     (Some [MPrim "address" None; MPrim "chain_id" None]);
                   MPrim "pair"
                     (Some [MPrim "nat" None; MPrim "bytes" None])]) |}) /\
  exists payload out,
    In (SignerSign payload, out) (log (snd forged)) /\
    exists (c : ContractAbstraction N) st counter chain hash pk,
      In (ContractStorage (address c), inr (RStorage st)) (log (snd forged)) /\
      permit_counter st = Some counter /\
      In (RpcGetChainId, inr (RString chain)) (log (snd forged)) /\
      In (RpcPackData
            (getUnpackedUniques (tokenAddress transfer) chain
               (toNumber counter) hash),
          inr (RPacked pk)) (log (snd forged)) /\
      payload = packed pk /\
      ((counter <= 2 ^ 53)%N ->
       getUnpackedUniques (tokenAddress transfer) chain (toNumber counter)
         hash
       = {| data :=
              MPrim "Pair"
                (Some [MPrim "Pair"
                         (Some [MString (tokenAddress transfer);
                                MString chain]);
                       MPrim "Pair"
                         (Some [MInt (decimal counter); MBytes hash])]);
            type :=
              MPrim "pair"
                (Some [MPrim "pair"
                         (Some [MPrim "address" None;
                                MPrim "chain_id" None]);
                       MPrim "pair"
                         (Some [MPrim "nat" None;
                                MPrim "bytes" None])]) |}).
Proof.
  assert (Hsafe : (5 <= 2 ^ 53)%N) by (vm_compute; discriminate).
  split.
  { split; [exact Hsafe |].
    exact (proj1 (signed_bytes_pack_the_permit_pair (W := N) hex2buf
                    blake2bHex)
             "KT1token" "NetXdQprcVkpaWU" 5%N "hash" Hsafe). }
  assert (Hin : exists payload out,
             nth_error (log (snd forged)) 7 = Some (SignerSign payload, out)).
  { eexists _, _. vm_compute. reflexivity. }
  destruct Hin as (payload & out & Hin). apply nth_error_In in Hin.
  exists payload, out. split; [exact Hin |].
  exact (proj2 (signed_bytes_pack_the_permit_pair hex2buf blake2bHex)
           (toolkit healthy) transfer (start 5) (log (snd forged)) payload
           out eq_refl Hin).
Defined.

(** C2, as stated, fails: for the counter 2^64 the int of the pair is not
    the decimal string of the counter, and for 10^21 it is no decimal
    string at all. *)
Lemma permit_int_is_not_decimal_beyond_2_53 :
  data (getUnpackedUniques "KT1token" "NetXdQprcVkpaWU"
          (Finite 18446744073709551616) "hash")
  = MPrim "Pair"
      (Some [MPrim "Pair"
               (Some [MString "KT1token"; MString "NetXdQprcVkpaWU"]);
             MPrim "Pair"
               (Some [MInt "18446744073709552000"; MBytes "hash"])]) /\
  decimal 18446744073709551616 <> "18446744073709552000" /\
  data (getUnpackedUniques "KT1token" "NetXdQprcVkpaWU"
          (Finite 1000000000000000000000) "hash")
  = MPrim "Pair"
      (Some [MPrim "Pair"
               (Some [MString "KT1token"; MString "NetXdQprcVkpaWU"]);
             MPrim "Pair" (Some [MInt "1e+21"; MBytes "hash"])]) /\
  decimal 1000000000000000000000 <> "1e+21".
Proof.
  repeat split; vm_compute; try reflexivity; discriminate.
Qed.

Lemma permit_hash_is_digest_of_packed_encoding_witness :
  exists h s',
    permitParamHash hex2buf blake2bHex (toolkit healthy)
      (contract healthy "KT1token") "transfer" batch (start 5) = (inr h, s').
Proof.
  eexists _, _.
  apply (proj2 (permit_hash_is_digest_of_packed_encoding hex2buf blake2bHex
                  (toolkit healthy) (contract healthy "KT1token") "transfer"
                  batch (start 5) _ _)).
  eexists _, _, _, _, _.
  repeat split; reflexivity.
Defined.

Example permit_pair_holds_5 :
  nth_error (map fst (log (snd first_call))) 5
  = Some (RpcPackData
            (getUnpackedUniques "KT1token" "NetXdQprcVkpaWU" (Finite 5)
               "blake2b32<05transfer({Pair(tz1alice;{Pair(tz1bob;0;1000;);Pair(tz1VSUr8wwNhLAzempoch5d6hLRiTh8Cjcjb;0;7;);};);};)>")) /\
  toString (Finite 5) = "5".
Proof. split; vm_compute; reflexivity. Qed.

Example permit_pair_holds_6_next :
  nth_error (map fst (log (snd second_call))) 11
  = Some (RpcPackData
            (getUnpackedUniques "KT1token" "NetXdQprcVkpaWU" (Finite 6)
               "blake2b32<05transfer({Pair(tz1alice;{Pair(tz1bob;0;1000;);Pair(tz1VSUr8wwNhLAzempoch5d6hLRiTh8Cjcjb;0;7;);};);};)>")) /\
  toString (Finite 6) = "6".
Proof. split; vm_compute; reflexivity. Qed.

Lemma permit_counter_is_the_one_just_read_witness :
  exists key payload hash,
    second_call = (inr (key, payload, hash), snd second_call) /\
    exists c st counter encoded pk1 chain pk2,
      log (snd second_call) = log (snd first_call) ++
        permit_events "KT1token" c st key encoded pk1 chain counter hash pk2 /\
      permit_counter st = Some counter /\
      payload = packed pk2 /\
      ((counter <= 2 ^ 53)%N ->
       data (getUnpackedUniques "KT1token" chain (toNumber counter) hash)
       = MPrim "Pair"
           (Some [MPrim "Pair" (Some [MString "KT1token"; MString chain]);
                  MPrim "Pair"
                    (Some [MInt (decimal counter); MBytes hash])])).
Proof.
  assert (H : exists r, second_call = (inr r, snd second_call)).
  { eexists. apply outcome. vm_compute. reflexivity. }
  destruct H as ([[key payload] hash] & H).
  exists key, payload, hash. split; [exact H |].
  exact (permit_counter_is_the_one_just_read hex2buf blake2bHex
           (toolkit healthy) "KT1token" "transfer" batch
           {| world := 6%N; log := log (snd first_call) |} _ _ _ _ H).
Defined.

(** C5, as stated, fails: the storage holds 2^53 + 1 and the pair that is
    packed holds 2^53. *)
Lemma permit_counter_above_2_53_is_rounded :
  (exists r, fst late_call = inr r) /\
  nth_error (log (snd late_call)) 1
  = Some (ContractStorage "KT1token",
          inr (RStorage {| permit_counter := Some 9007199254740993%N |})) /\
  (exists hash,
     nth_error (map fst (log (snd late_call))) 5
     = Some (RpcPackData
               {| data :=
                    MPrim "Pair"
                      (Some [MPrim "Pair"
                               (Some [MString "KT1token";
                                      MString "NetXdQprcVkpaWU"]);
                             MPrim "Pair"
                               (Some [MInt "9007199254740992";
                                      MBytes hash])]);
                  type :=
                    MPrim "pair"
                      (Some [MPrim "pair"
                               (Some [MPrim "address" None;
                                      MPrim "chain_id" None]);
                             MPrim "pair"
                               (Some [MPrim "nat" None;
                                      MPrim "bytes" None])]) |})) /\
  decimal 9007199254740993 <> "9007199254740992".
Proof.
  split; [| split; [| split]].
  - eexists. vm_compute. reflexivity.
  - vm_compute. reflexivity.
  - eexists. vm_compute. reflexivity.
  - vm_compute. discriminate.
Qed.

Example estimated_total : fst estimated = inr (Finite 350).
Proof. vm_compute. reflexivity. Qed.

Lemma estimate_sums_the_two_fees_witness :
  (100 + 250 <= 2 ^ 53)%N /\
  exists c permit feeTransfer e1 e2,
    suggestedFeeMutez e1 = Finite 100 /\
    suggestedFeeMutez e2 = Finite 250 /\
    estimated
    = (inr (Finite (100 + 250)),
       {| world := 5%N;
          log := log (start 5) ++
            [(ContractAt estimator "KT1token", inr (RContract c));
             (EstimateBatch estimator
                [{| kind := TRANSACTION; tParams := permit |};
                 {| kind := TRANSACTION; tParams := feeTransfer |}],
              inr (REstimates [e1; e2]))] |}).
Proof.
  assert (Hsum : (100 + 250 <= 2 ^ 53)%N) by (vm_compute; discriminate).
  split; [exact Hsum |].
  eexists _, _, _, _, _. split; [| split].
  3: apply (proj2 (estimate_sums_the_two_fees (toolkit healthy) request
                     (start 5))
              (contract healthy "KT1token") 5%N _ _ _ _ _ 100%N 250%N 5%N
              eq_refl eq_refl eq_refl eq_refl eq_refl eq_refl eq_refl Hsum).
  all: reflexivity.
Defined.

(** C6, as stated, fails: for fees of 2^53 and 1 the total is 2^53. *)
Lemma estimate_above_2_53_is_not_the_sum :
  nth_error (map snd (log (snd overestimated))) 1
  = Some (inr (REstimates
                 [{| suggestedFeeMutez := Finite 9007199254740992;
                     gasLimit := Finite 0; storageLimit := Finite 0 |};
                  {| suggestedFeeMutez := Finite 1;
                     gasLimit := Finite 0; storageLimit := Finite 0 |}])) /\
  fst overestimated = inr (Finite 9007199254740992) /\
  Finite 9007199254740992 <> Finite (9007199254740992 + 1).
Proof.
  split; [| split].
  - vm_compute. reflexivity.
  - vm_compute. reflexivity.
  - vm_compute. discriminate.
Qed.

Example unkeyed_calls :
  kinds (log (snd unkeyed))
  = [KWalletPkh; KWalletAt; KContractStorage; KSignerPublicKey].
Proof. vm_compute. reflexivity. Qed.

Example unsigned_calls : kinds (log (snd unsigned)) = forge_steps.
Proof. vm_compute. reflexivity. Qed.

Lemma signer_rejection_stops_the_run_witness :
  (signer_call SignerPublicKey = true /\
   In (SignerPublicKey, inl "refused") (log (snd unkeyed)) /\
   fst unkeyed = inl "refused" /\
   exists before,
     log (snd unkeyed) = before ++ [(SignerPublicKey, inl "refused")]) /\
  (exists payload,
     signer_call (SignerSign payload) = true /\
     In (SignerSign payload, inl "refused") (log (snd unsigned)) /\
     fst unsigned = inl "refused" /\
     exists before,
       log (snd unsigned) = before ++ [(SignerSign payload, inl "refused")]).
Proof.
  split.
  - assert (Hin : In (SignerPublicKey, inl "refused") (log (snd unkeyed))).
    { apply (nth_error_In _ 3). vm_compute. reflexivity. }
    split; [reflexivity |]. split; [exact Hin |].
    exact (signer_rejection_stops_the_run hex2buf blake2bHex
             (refusing KSignerPublicKey) transfer (start 5)
             (log (snd unkeyed)) SignerPublicKey "refused" eq_refl eq_refl
             Hin).
  - assert (Hin : exists payload,
               nth_error (log (snd unsigned)) 7
               = Some (SignerSign payload, inl "refused")).
    { eexists. vm_compute. reflexivity. }
    destruct Hin as (payload & Hin). apply nth_error_In in Hin.
    exists payload. split; [reflexivity |]. split; [exact Hin |].
    exact (signer_rejection_stops_the_run hex2buf blake2bHex
             (refusing KSignerSign) transfer (start 5)
             (log (snd unsigned)) (SignerSign payload) "refused" eq_refl
             eq_refl Hin).
Defined.

Lemma estimate_has_no_partial_sum_witness :
  (exists ops,
     In (EstimateBatch estimator ops, inl "refused") (log (snd rejected)) /\
     fst rejected = inl "refused") /\
  (fst estimated = inr (Finite 350) /\
   exists c ops estimates,
     log (snd estimated)
     = [(ContractAt estimator "KT1token", inr (RContract c));
        (EstimateBatch estimator ops, inr (REstimates estimates))] /\
     Finite 350
     = fold_left
         (fun totalEstimate est =>
            number_add totalEstimate (suggestedFeeMutez est))
         estimates (Finite 0)).
Proof.
  split.
  - assert (Hin : exists ops,
               nth_error (log (snd rejected)) 1
               = Some (EstimateBatch estimator ops, inl "refused")).
    { eexists. vm_compute. reflexivity. }
    destruct Hin as (ops & Hin). apply nth_error_In in Hin.
    exists ops. split; [exact Hin |].
    exact (proj1
             (proj1
                (estimate_has_no_partial_sum (refusing KEstimateBatch)
                   request (start 5) (log (snd rejected)) eq_refl)
                estimator ops "refused" Hin)).
  - split; [exact estimated_total |].
    exact (proj2
             (estimate_has_no_partial_sum (toolkit healthy) request
                (start 5) (log (snd estimated)) eq_refl)
             (Finite 350) estimated_total).
Defined.

Lemma forge_steps_are_sequential_witness :
  exists transferParams permitParams,
    forged = (inr (transferParams, permitParams), snd forged) /\
    exists from_ c st encoded pk1 chain counter pk2 signed,
      log (snd forged) = log (start 5) ++
        forge_events from_ "KT1token" c st (pick_pubkey permitParams)
          encoded pk1 chain counter (pick_hash permitParams) pk2 signed /\
      permit_counter st = Some counter /\
      pick_signature permitParams = sig signed.
Proof.
  destruct forged_returns as ([transferParams permitParams] & H).
  exists transferParams, permitParams. split; [exact H |].
  exact (proj2
           (forge_steps_are_sequential hex2buf blake2bHex (toolkit healthy)
              transfer)
           (start 5) _ _ _ H).
Defined.

Lemma relayer_is_the_estimator_witness :
  (exists transferParams permitParams,
     forged = (inr (transferParams, permitParams), snd forged) /\
     get "to_" (fee_leg transferParams)
     = VString (signer_address estimator)) /\
  (exists signer out rest,
     signer_address signer = RELAYER_ADDRESS /\
     log (snd estimated)
     = (ContractAt signer "KT1token", out) :: rest) /\
  (exists signer c permit feeTransfer out,
     signer_address signer = RELAYER_ADDRESS /\
     log (snd estimated)
     = [(ContractAt signer "KT1token", inr (RContract c));
        (EstimateBatch signer
           [{| kind := TRANSACTION; tParams := permit |};
            {| kind := TRANSACTION; tParams := feeTransfer |}],
         out)]).
Proof.
  destruct (relayer_is_the_estimator (W := N) hex2buf blake2bHex)
    as (_ & _ & _ & Hleg & _ & Hfirst & Hbatch).
  split; [| split].
  - destruct forged_returns as ([transferParams permitParams] & H).
    exists transferParams, permitParams. split; [exact H |].
    exact (Hleg (toolkit healthy) transfer (start 5) _ _ _ H).
  - destruct (Hfirst (toolkit healthy) request (start 5))
      as (signer & out & rest & Hsigner & Hlog & _).
    exists signer, out, rest. split; [exact Hsigner | exact Hlog].
  - destruct (Hbatch (toolkit healthy) request (start 5)
                (contract healthy "KT1token") 5%N _ _ _
                eq_refl eq_refl eq_refl eq_refl)
      as (signer & out & Hsigner & Hlog).
    eexists signer, _, _, _, out. split; [exact Hsigner | exact Hlog].
Defined.

End Runs.

(** * More of the module's behaviour *)

Section Sums.

(** The loop of [estimate] over estimates whose fees add up within 2^53
    keeps the exact sum. *)
Lemma fold_fees_exact (estimates : list Estimate) :
  forall (amounts : list N) (acc : N),
    map suggestedFeeMutez estimates = map Finite amounts ->
    (acc + fold_right N.add 0%N amounts <= 2 ^ 53)%N ->
    fold_left
      (fun totalEstimate est =>
         number_add totalEstimate (suggestedFeeMutez est))
      estimates (Finite acc)
    = Finite (acc + fold_right N.add 0%N amounts).
Proof.
  induction estimates as [| est rest IH]; intros amounts acc Hfees Hsum.
  - destruct amounts; [| discriminate]. simpl. rewrite N.add_0_r.
    reflexivity.
  - destruct amounts as [| a amounts]; [discriminate |].
    simpl in Hfees. injection Hfees as Ha Hrest.
    cbn [fold_left fold_right] in *. rewrite Ha.
    assert (Hadd : number_add (Finite acc) (Finite a) = Finite (acc + a)).
    { unfold number_add. apply round_double_safe. lia. }
    rewrite Hadd. rewrite (IH amounts (acc + a)%N Hrest) by lia.
    f_equal. lia.
Qed.

Lemma decimal_inj (a b : N) : decimal a = decimal b -> a = b.
Proof.
  unfold decimal. intros H.
  assert (Hu : forall n,
             NilZero.uint_of_string (NilZero.string_of_uint (N.to_uint n))
             = Some (N.to_uint n)).
  { intros n. apply NilZero.usu. destruct n as [| p]; [discriminate |].
    apply DecimalPos.Unsigned.to_uint_nonnil. }
  apply DecimalN.Unsigned.to_uint_inj.
  pose proof (Hu a) as Ha. rewrite H, Hu in Ha. congruence.
Qed.

End Sums.

Section Extras.

Context {W : Type}.
Variable hex2buf : string -> result (list Byte.byte).
Variable blake2bHex : list Byte.byte -> option (list Byte.byte) -> N -> string.

(** X1. When every collaborator answers, [forgeTxAndParams] returns: each
    call is made on the world the one before left, the schema is given one
    argument, the array of the one group, and the permit holds the public
    key, the [sig] of the signature and the hash of the packed
    arguments. *)
Theorem forge_returns_when_all_resolve (tezos : TezosToolkit W)
    (p : ForgeTxParams) (s : state W) from_ w1 c w2 st w3 key w4 encoded
    pk1 w5 buf chain w6 counter pk2 w7 signed w8 :
  wallet_pkh tezos (world s) = (inr from_, w1) ->
  wallet_at tezos (tokenAddress p) w1 = (inr c, w2) ->
  storage c w2 = (inr st, w3) ->
  signer_publicKey tezos w3 = (inr key, w4) ->
  parameterSchema_Encode c "transfer"
    [item 0 (formTransferParams from_ RELAYER_ADDRESS p)] = inr encoded ->
  rpc_packData tezos
    {| data := encoded;
       type := parameterSchema_root_typeWithoutAnnotations c |} w4
    = (inr pk1, w5) ->
  hex2buf (packed pk1) = inr buf ->
  rpc_getChainId tezos w5 = (inr chain, w6) ->
  permit_counter st = Some counter ->
  rpc_packData tezos
    (getUnpackedUniques (tokenAddress p) chain (toNumber counter)
       (blake2bHex buf None 32%N)) w6 = (inr pk2, w7) ->
  signer_sign tezos (packed pk2) w7 = (inr signed, w8) ->
  forgeTxAndParams hex2buf blake2bHex tezos p s
  = (inr (formTransferParams from_ RELAYER_ADDRESS p,
          {| pick_pubkey := key; pick_signature := sig signed;
             pick_hash := blake2bHex buf None 32%N |}),
     {| world := w8;
        log := log s ++
          forge_events from_ (tokenAddress p) c st key encoded pk1 chain
            counter (blake2bHex buf None 32%N) pk2 signed |}).
Proof.
  intros Hpkh Hat Hst Hkey Henc Hpk1 Hbuf Hchain Hcounter Hpk2 Hsign.
  unfold forgeTxAndParams, createPermitPayload, permitParamHash, bind, await.
  rewrite Hpkh. cbn [world log]. rewrite Hat. cbn [world log].
  rewrite Hst. cbn [world log]. rewrite Hkey. cbn [world log].
  cbn [formTransferParams spread lift ret item nth] in *.
  rewrite Henc. cbn [lift ret world log]. rewrite Hpk1.
  cbn [world log]. rewrite Hbuf. cbn [lift ret world log].
  rewrite Hchain. cbn [world log]. rewrite Hcounter. cbn [ret world log].
  rewrite Hpk2. cbn [world log ret]. rewrite Hsign.
  unfold forge_events, permit_events. cbn [app].
  repeat rewrite <- app_assoc. reflexivity.
Qed.

(** X2. Whatever call of [forgeTxAndParams] is rejected, the wallet's, the
    contract's, the signer's or the RPC client's, the run throws what it
    was rejected with, that call is the last one made, and the calls made
    before it are the steps that precede it in the program, all of them
    resolved. *)
Theorem rejected_call_ends_the_forge (tezos : TezosToolkit W)
    (p : ForgeTxParams) (s : state W) evs c e :
  log (snd (forgeTxAndParams hex2buf blake2bHex tezos p s)) = log s ++ evs ->
  In (c, inl e) evs ->
  fst (forgeTxAndParams hex2buf blake2bHex tezos p s) = inl e /\
  exists before,
    evs = before ++ [(c, inl e)] /\
    Forall (fun ev => resolved ev = true) before /\
    prefix (kinds before ++ [kind_of c]) forge_steps.
Proof.
  intros Hlog Hin.
  destruct (schedule_of_run _ _ _ _
              (forgeTxAndParams_schedule hex2buf blake2bHex tezos p) Hlog)
    as (Hpre & Hfs & _).
  destruct Hfs as [Hall | (before & c' & e' & -> & Hb & Hr)].
  - rewrite Forall_forall in Hall. apply Hall in Hin. discriminate.
  - apply in_app_or in Hin. destruct Hin as [Hin | [Heq | []]].
    + rewrite Forall_forall in Hb. apply Hb in Hin. discriminate.
    + injection Heq as -> ->. split; [exact Hr |].
      exists before. repeat split; try assumption.
      unfold kinds in *. rewrite map_app in Hpre. exact Hpre.
Qed.

(** X3. When the contract's schema cannot encode the batch, the error it
    throws is what [forgeTxAndParams] throws, after the address, the
    contract, the storage and the public key were fetched: nothing is
    packed, the chain id is not read and no signature is asked for. *)
Theorem forge_encoding_error_before_packing (tezos : TezosToolkit W)
    (p : ForgeTxParams) (s : state W) from_ w1 c w2 st w3 key w4 e :
  wallet_pkh tezos (world s) = (inr from_, w1) ->
  wallet_at tezos (tokenAddress p) w1 = (inr c, w2) ->
  storage c w2 = (inr st, w3) ->
  signer_publicKey tezos w3 = (inr key, w4) ->
  parameterSchema_Encode c "transfer"
    [item 0 (formTransferParams from_ RELAYER_ADDRESS p)] = inl e ->
  forgeTxAndParams hex2buf blake2bHex tezos p s
  = (inl e,
     {| world := w4;
        log := log s ++
          [(WalletPkh, inr (RString from_));
           (WalletAt (tokenAddress p), inr (RContract c));
           (ContractStorage (address c), inr (RStorage st));
           (SignerPublicKey, inr (RString key))] |}).
Proof.
  intros Hpkh Hat Hst Hkey Henc.
  unfold forgeTxAndParams, createPermitPayload, permitParamHash, bind, await.
  rewrite Hpkh. cbn [world log]. rewrite Hat. cbn [world log].
  rewrite Hst. cbn [world log]. rewrite Hkey. cbn [world log].
  cbn [formTransferParams spread lift ret item nth] in *.
  rewrite Henc. cbn [lift throw world log].
  repeat rewrite <- app_assoc. reflexivity.
Qed.

(** X4. When the storage of the contract has no [permit_counter],
    [forgeTxAndParams] throws once the arguments are packed and the chain
    id is read: the permit tuple is not packed and no signature is asked
    for. *)
Theorem forge_without_permit_counter (tezos : TezosToolkit W)
    (p : ForgeTxParams) (s : state W) from_ w1 c w2 st w3 key w4 encoded
    pk1 w5 buf chain w6 :
  wallet_pkh tezos (world s) = (inr from_, w1) ->
  wallet_at tezos (tokenAddress p) w1 = (inr c, w2) ->
  storage c w2 = (inr st, w3) ->
  signer_publicKey tezos w3 = (inr key, w4) ->
  parameterSchema_Encode c "transfer"
    [item 0 (formTransferParams from_ RELAYER_ADDRESS p)] = inr encoded ->
  rpc_packData tezos
    {| data := encoded;
       type := parameterSchema_root_typeWithoutAnnotations c |} w4
    = (inr pk1, w5) ->
  hex2buf (packed pk1) = inr buf ->
  rpc_getChainId tezos w5 = (inr chain, w6) ->
  permit_counter st = None ->
  exists e,
    forgeTxAndParams hex2buf blake2bHex tezos p s
    = (inl e,
       {| world := w6;
          log := log s ++
            [(WalletPkh, inr (RString from_));
             (WalletAt (tokenAddress p), inr (RContract c));
             (ContractStorage (address c), inr (RStorage st));
             (SignerPublicKey, inr (RString key));
             (RpcPackData
                {| data := encoded;
                   type := parameterSchema_root_typeWithoutAnnotations c |},
              inr (RPacked pk1));
             (RpcGetChainId, inr (RString chain))] |}).
Proof.
  intros Hpkh Hat Hst Hkey Henc Hpk1 Hbuf Hchain Hcounter.
  eexists.
  unfold forgeTxAndParams, createPermitPayload, permitParamHash, bind, await.
  rewrite Hpkh. cbn [world log]. rewrite Hat. cbn [world log].
  rewrite Hst. cbn [world log]. rewrite Hkey. cbn [world log].
  cbn [formTransferParams spread lift ret item nth] in *.
  rewrite Henc. cbn [lift ret world log]. rewrite Hpk1.
  cbn [world log]. rewrite Hbuf. cbn [lift ret world log].
  rewrite Hchain. cbn [world log]. rewrite Hcounter. cbn [throw world log].
  repeat rewrite <- app_assoc. reflexivity.
Qed.

(** X6. Whatever number of estimates the batch resolves to (three when a
    reveal is estimated with the two calls, none at all), [estimate]
    returns the sum of all their suggested fees, exact as long as it does
    not exceed 2^53. *)
Theorem estimate_sums_every_estimate (tezos : TezosToolkit W)
    (permitParams : PermitParams) (s : state W) c w1 permit args feeTransfer
    estimates amounts w2 :
  contract_at tezos estimator (contractAddress permitParams) (world s)
    = (inr c, w1) ->
  methods c "permit"
    [VString (pubkey permitParams); VString (signature permitParams);
     VString (hash permitParams)] = inr permit ->
  spread (params (callParams permitParams)) = inr args ->
  methods c (entrypoint (callParams permitParams)) args = inr feeTransfer ->
  estimate_batch tezos estimator
    [{| kind := TRANSACTION; tParams := permit |};
     {| kind := TRANSACTION; tParams := feeTransfer |}] w1
    = (inr estimates, w2) ->
  map suggestedFeeMutez estimates = map Finite amounts ->
  (fold_right N.add 0%N amounts <= 2 ^ 53)%N ->
  estimate tezos permitParams s
  = (inr (Finite (fold_right N.add 0%N amounts)),
     {| world := w2;
        log := log s ++
          [(ContractAt estimator (contractAddress permitParams),
            inr (RContract c));
           (EstimateBatch estimator
              [{| kind := TRANSACTION; tParams := permit |};
               {| kind := TRANSACTION; tParams := feeTransfer |}],
            inr (REstimates estimates))] |}).
Proof.
  intros Hat Hpermit Hargs Hfee Hbatch Hfees Hsum.
  unfold estimate, estimateAsBatch, bind, await.
  rewrite Hat, Hpermit. cbn [lift ret]. rewrite Hargs. cbn [lift ret].
  rewrite Hfee. cbn [lift ret world map]. rewrite Hbatch.
  rewrite (fold_fees_exact estimates amounts 0%N Hfees) by exact Hsum.
  rewrite N.add_0_l. cbn [log]. rewrite <- app_assoc. reflexivity.
Qed.

(** X7. When the contract proxy cannot build one of the two calls (no such
    entrypoint, arguments that do not fit, call parameters that are not a
    list), [estimate] throws that error once the contract is fetched and
    submits no batch. *)
Theorem estimate_submits_nothing_unbuilt (tezos : TezosToolkit W)
    (permitParams : PermitParams) (s : state W) c w1 e :
  contract_at tezos estimator (contractAddress permitParams) (world s)
    = (inr c, w1) ->
  (methods c "permit"
     [VString (pubkey permitParams); VString (signature permitParams);
      VString (hash permitParams)] = inl e \/
   exists permit,
     methods c "permit"
       [VString (pubkey permitParams); VString (signature permitParams);
        VString (hash permitParams)] = inr permit /\
     (spread (params (callParams permitParams)) = inl e \/
      exists args,
        spread (params (callParams permitParams)) = inr args /\
        methods c (entrypoint (callParams permitParams)) args = inl e)) ->
  estimate tezos permitParams s
  = (inl e,
     {| world := w1;
        log := log s ++
          [(ContractAt estimator (contractAddress permitParams),
            inr (RContract c))] |}).
Proof.
  intros Hat Hfail.
  unfold estimate, estimateAsBatch, bind, await. rewrite Hat.
  destruct Hfail as [Hpermit | (permit & Hpermit & [Hargs | (args & Hargs
                                                              & Hfee)])].
  - rewrite Hpermit. reflexivity.
  - rewrite Hpermit. cbn [lift ret]. rewrite Hargs. reflexivity.
  - rewrite Hpermit. cbn [lift ret]. rewrite Hargs. cbn [lift ret].
    rewrite Hfee. reflexivity.
Qed.

(** X8. The permit of [forgeTxAndParams] and the batch returned with it
    fit [estimate]: the batch is an array of one argument; the hash of
    the permit is over the encoding of the [transfer] entrypoint on that
    argument, and a batch that [estimate] submits for the permit and the
    returned batch holds the [permit] call on the returned key, signature
    and hash and the [transfer] call on that same argument. *)
Theorem forged_permit_is_estimated_on_its_argument (tezos : TezosToolkit W)
    (p : ForgeTxParams) (s : state W) transferParams permitParams s' :
  forgeTxAndParams hex2buf blake2bHex tezos p s
    = (inr (transferParams, permitParams), s') ->
  exists group,
    transferParams = VArray [group] /\
    (exists evs c encoded pk buf,
       log s' = log s ++ evs /\
       In (WalletAt (tokenAddress p), inr (RContract c)) evs /\
       parameterSchema_Encode c "transfer" [group] = inr encoded /\
       In (RpcPackData
             {| data := encoded;
                type := parameterSchema_root_typeWithoutAnnotations c |},
           inr (RPacked pk)) evs /\
       hex2buf (packed pk) = inr buf /\
       pick_hash permitParams = blake2bHex buf None 32%N) /\
    forall (estimating : TezosToolkit W) contractAddress s2 evs signer ops
           out,
      log (snd (estimate estimating
                  {| signature := pick_signature permitParams;
                     hash := pick_hash permitParams;
                     pubkey := pick_pubkey permitParams;
                     contractAddress := contractAddress;
                     callParams :=
                       {| entrypoint := "transfer";
                          params := transferParams |} |} s2))
        = log s2 ++ evs ->
      In (EstimateBatch signer ops, out) evs ->
      exists c permit feeTransfer,
        In (ContractAt signer contractAddress, inr (RContract c)) evs /\
        methods c "permit"
          [VString (pick_pubkey permitParams);
           VString (pick_signature permitParams);
           VString (pick_hash permitParams)] = inr permit /\
        methods c "transfer" [group] = inr feeTransfer /\
        ops = [{| kind := TRANSACTION; tParams := permit |};
               {| kind := TRANSACTION; tParams := feeTransfer |}].
Proof.
  intros H. apply forgeTxAndParams_inr in H.
  destruct H as (from_ & c & st & key & args & encoded & pk1 & buf & chain
                 & counter & pk2 & signed & -> & Hsp & Henc & Hbuf & _ & ->
                 & Hlog).
  cbn [formTransferParams spread] in Hsp. injection Hsp as <-.
  eexists. split; [reflexivity |]. split.
  - eexists _, c, encoded, pk1, buf. split; [exact Hlog |].
    unfold forge_events, permit_events.
    repeat split; try assumption; simpl; tauto.
  - intros estimating addr s2 evs signer ops out Hlog2 Hin.
    apply estimate_log_cases in Hlog2.
    cbn [contractAddress callParams entrypoint params pubkey signature hash
         spread formTransferParams] in Hlog2.
    destruct Hlog2 as [(out0 & ->)
                      | (c' & permit & args' & feeTransfer & out' & Hpermit
                         & Hargs & Hfee & ->)].
    + destruct Hin as [Hin | []]. discriminate.
    + destruct Hin as [Hin | [Hin | []]]; [discriminate |].
      injection Hin as <- <- <-. injection Hargs as <-.
      exists c', permit, feeTransfer.
      repeat split; try assumption. left. reflexivity.
Qed.

(** X9. The permit tuple keeps its four parts apart: two tuples with
    counters up to 2^53 are the same data only when the contract, the
    chain, the counter and the hash are the same. *)
Theorem permit_tuple_determines_its_parts (contractAddress chainId : string)
    (counter : BigNumber) (permitHash : string)
    (contractAddress' chainId' : string) (counter' : BigNumber)
    (permitHash' : string) :
  (counter <= 2 ^ 53)%N ->
  (counter' <= 2 ^ 53)%N ->
  data (getUnpackedUniques contractAddress chainId (toNumber counter)
          permitHash)
  = data (getUnpackedUniques contractAddress' chainId' (toNumber counter')
            permitHash') ->
  contractAddress = contractAddress' /\ chainId = chainId' /\
  counter = counter' /\ permitHash = permitHash'.
Proof.
  intros Hc Hc' H. unfold getUnpackedUniques in H. cbn [data] in H.
  rewrite !toString_toNumber_safe in H by assumption.
  injection H as Ha Hch Hk Hh.
  apply decimal_inj in Hk. repeat split; assumption.
Qed.

(** X10. A batch tells the transfer it was built from: two batches are the
    same exactly when the source, the relayer, the destination, the token
    id, the amount and the fee are the same.  The address of the token
    contract is not part of the batch. *)
Theorem transfer_batch_determines_its_inputs (from_ relayerAddress : string)
    (p : ForgeTxParams) (from_' relayerAddress' : string)
    (p' : ForgeTxParams) :
  formTransferParams from_ relayerAddress p
  = formTransferParams from_' relayerAddress' p'
  <->
  from_ = from_' /\ relayerAddress = relayerAddress' /\ to p = to p' /\
  tokenId p = tokenId p' /\ amount p = amount p' /\
  relayerFee p = relayerFee p'.
Proof.
  unfold formTransferParams. split.
  - intros H. injection H as Hfrom Hto Hid Hamount Hrelayer _ Hfee.
    repeat split; try assumption.
    destruct (tokenId p), (tokenId p'); simpl in Hid; congruence.
  - intros (-> & -> & -> & -> & -> & ->). reflexivity.
Qed.

(** X11. [permitParamHash] throws in exactly four ways: the parameters are
    not iterable or the schema does not encode them, and then no call was
    made; the packing call is rejected; or what the packing gave does not
    decode as hex, after that one call. *)
Theorem permit_hash_failures (tezos : TezosToolkit W)
    (contract : ContractAbstraction W) (entrypoint : string)
    (parameters : value) (s : state W) (e : exn) (s' : state W) :
  permitParamHash hex2buf blake2bHex tezos contract entrypoint parameters s
    = (inl e, s')
  <->
  (spread parameters = inl e /\ s' = s) \/
  (exists args,
     spread parameters = inr args /\
     parameterSchema_Encode contract entrypoint args = inl e /\ s' = s) \/
  (exists args encoded w',
     spread parameters = inr args /\
     parameterSchema_Encode contract entrypoint args = inr encoded /\
     rpc_packData tezos
       {| data := encoded;
          type := parameterSchema_root_typeWithoutAnnotations contract |}
       (world s) = (inl e, w') /\
     s' = {| world := w';
             log := log s ++
               [(RpcPackData
                   {| data := encoded;
                      type :=
                        parameterSchema_root_typeWithoutAnnotations
                          contract |},
                 inl e)] |}) \/
  (exists args encoded raw_packed w',
     spread parameters = inr args /\
     parameterSchema_Encode contract entrypoint args = inr encoded /\
     rpc_packData tezos
       {| data := encoded;
          type := parameterSchema_root_typeWithoutAnnotations contract |}
       (world s) = (inr raw_packed, w') /\
     hex2buf (packed raw_packed) = inl e /\
     s' = {| world := w';
             log := log s ++
               [(RpcPackData
                   {| data := encoded;
                      type :=
                        parameterSchema_root_typeWithoutAnnotations
                          contract |},
                 inr (RPacked raw_packed))] |}).
Proof.
  unfold permitParamHash, bind, await, lift, ret, throw.
  destruct s as [w0 l0]. cbn [world log].
  destruct (spread parameters) as [e1 | args] eqn:Hsp.
  { split.
    - intros H. injection H as <- <-. left. split; reflexivity.
    - intros [(H & ->) | [(? & H & _) | [(? & ? & ? & H & _)
                                         | (? & ? & ? & ? & H & _)]]];
        congruence. }
  destruct (parameterSchema_Encode contract entrypoint args)
    as [e2 | encoded] eqn:Henc.
  { split.
    - intros H. injection H as <- <-. right. left. exists args.
      repeat split; assumption.
    - intros [(H & _) | [(a & H & He & ->)
                         | [(a & ? & ? & H & He & _)
                            | (a & ? & ? & ? & H & He & _)]]];
        try discriminate; injection H as <-; congruence. }
  cbn beta iota zeta delta [world log].
  match goal with
  | |- context [rpc_packData tezos ?u w0] =>
      destruct (rpc_packData tezos u w0) as [[e3 | raw_packed] w'] eqn:Hpack
  end.
  { split.
    - intros H. injection H as <- <-. right. right. left.
      exists args, encoded, w'. repeat split; assumption.
    - intros [(H & _) | [(a & H & He & _)
                         | [(a & enc & w & H & He & Hp & ->)
                            | (a & enc & pk & w & H & He & Hp & _)]]];
        try discriminate; injection H as <-; try congruence. }
  cbn beta iota zeta delta [world log].
  destruct (hex2buf (packed raw_packed)) as [e4 | buf] eqn:Hbuf.
  - split.
    + intros H. injection H as <- <-. right. right. right.
      exists args, encoded, raw_packed, w'. repeat split; assumption.
    + intros [(H & _) | [(a & H & He & _)
                         | [(a & enc & w & H & He & Hp & _)
                            | (a & enc & pk & w & H & He & Hp & Hb & ->)]]];
        try discriminate; injection H as <-; try congruence.

  - split.
    + discriminate.
    + intros [(H & _) | [(a & H & He & _)
                         | [(a & enc & w & H & He & Hp & _)
                            | (a & enc & pk & w & H & He & Hp & Hb & _)]]];
        try discriminate; injection H as <-; try congruence.

Qed.

(** X5. A run of [forgeTxAndParams] that throws although every call it
    made resolved stopped in one of three places, each before the permit
    tuple is packed and before a signature is asked for: after the public
    key, because the schema did not encode the batch; after the packing
    of the arguments, because what it gave is not hex; or after the chain
    id, because the storage read has no [permit_counter]. *)
Theorem forge_throws_of_its_own_in_three_places (tezos : TezosToolkit W)
    (p : ForgeTxParams) (s : state W) evs e :
  log (snd (forgeTxAndParams hex2buf blake2bHex tezos p s)) = log s ++ evs ->
  fst (forgeTxAndParams hex2buf blake2bHex tezos p s) = inl e ->
  Forall (fun ev => resolved ev = true) evs ->
  (exists from_ c,
     In (WalletPkh, inr (RString from_)) evs /\
     In (WalletAt (tokenAddress p), inr (RContract c)) evs /\
     parameterSchema_Encode c "transfer"
       [item 0 (formTransferParams from_ RELAYER_ADDRESS p)] = inl e /\
     kinds evs = firstn 4 forge_steps) \/
  (exists unpacked raw_packed,
     In (RpcPackData unpacked, inr (RPacked raw_packed)) evs /\
     hex2buf (packed raw_packed) = inl e /\
     kinds evs = firstn 5 forge_steps) \/
  (exists (c : ContractAbstraction W) st,
     In (ContractStorage (address c), inr (RStorage st)) evs /\
     permit_counter st = None /\
     kinds evs = firstn 6 forge_steps).
Proof.
  unfold forgeTxAndParams, createPermitPayload, permitParamHash, bind, await,
    lift, ret, throw.
  cbn [formTransferParams spread].
  destruct (wallet_pkh tezos (world s)) as [[e1 | from_] w1];
    cbn [fst snd world log].
  { intros H _ Hall. apply app_inv_head in H. subst evs.
    inversion Hall as [| ? ? Hr _]. discriminate. }
  destruct (wallet_at tezos (tokenAddress p) w1) as [[e2 | c] w2];
    cbn [fst snd world log].
  { intros H _ Hall. rewrite <- app_assoc in H. apply app_inv_head in H.
    subst evs. apply Forall_app in Hall. destruct Hall as [_ Hall].
    inversion Hall as [| ? ? Hr _]. discriminate. }
  destruct (storage c w2) as [[e3 | st] w3]; cbn [fst snd world log].
  { intros H _ Hall. repeat rewrite <- app_assoc in H.
    apply app_inv_head in H. subst evs.
    repeat (apply Forall_app in Hall; destruct Hall as [_ Hall]).
    inversion Hall as [| ? ? Hr _]. discriminate. }
  destruct (signer_publicKey tezos w3) as [[e4 | key] w4];
    cbn [fst snd world log].
  { intros H _ Hall. repeat rewrite <- app_assoc in H.
    apply app_inv_head in H. subst evs.
    repeat (apply Forall_app in Hall; destruct Hall as [_ Hall]).
    inversion Hall as [| ? ? Hr _]. discriminate. }
  destruct (parameterSchema_Encode c "transfer" _) as [e5 | encoded] eqn:Henc;
    cbn [fst snd world log].
  { intros H He _. repeat rewrite <- app_assoc in H.
    apply app_inv_head in H. subst evs. injection He as <-.
    left. exists from_, c. cbn [item nth formTransferParams].
    repeat split; try assumption; simpl; tauto. }
  match goal with
  | |- context [rpc_packData tezos ?u w4] =>
      destruct (rpc_packData tezos u w4) as [[e6 | pk1] w5]
  end; cbn [fst snd world log].
  { intros H _ Hall. repeat rewrite <- app_assoc in H.
    apply app_inv_head in H. subst evs.
    repeat (apply Forall_app in Hall; destruct Hall as [_ Hall]).
    inversion Hall as [| ? ? Hr _]. discriminate. }
  destruct (hex2buf (packed pk1)) as [e7 | buf] eqn:Hbuf;
    cbn [fst snd world log].
  { intros H He _. repeat rewrite <- app_assoc in H.
    apply app_inv_head in H. subst evs. injection He as <-.
    right. left. eexists _, pk1.
    repeat split; try assumption; simpl; tauto. }
  destruct (rpc_getChainId tezos w5) as [[e8 | chain] w6];
    cbn [fst snd world log].
  { intros H _ Hall. repeat rewrite <- app_assoc in H.
    apply app_inv_head in H. subst evs.
    repeat (apply Forall_app in Hall; destruct Hall as [_ Hall]).
    inversion Hall as [| ? ? Hr _]. discriminate. }
  destruct (permit_counter st) as [counter |] eqn:Hcounter;
    cbn [fst snd world log].
  2: { intros H _ _. repeat rewrite <- app_assoc in H.
       apply app_inv_head in H. subst evs.
       right. right. exists c, st.
       repeat split; try assumption; simpl; tauto. }
  match goal with
  | |- context [rpc_packData tezos ?u w6] =>
      destruct (rpc_packData tezos u w6) as [[e9 | pk2] w7]
  end; cbn [fst snd world log].
  { intros H _ Hall. repeat rewrite <- app_assoc in H.
    apply app_inv_head in H. subst evs.
    repeat (apply Forall_app in Hall; destruct Hall as [_ Hall]).
    inversion Hall as [| ? ? Hr _]. discriminate. }
  destruct (signer_sign tezos (packed pk2) w7) as [[e10 | signed] w8];
    cbn [fst snd world log].
  { intros H _ Hall. repeat rewrite <- app_assoc in H.
    apply app_inv_head in H. subst evs.
    repeat (apply Forall_app in Hall; destruct Hall as [_ Hall]).
    inversion Hall as [| ? ? Hr _]. discriminate. }
  intros _ He. discriminate.
Qed.

End Extras.

(** * More of the behaviour, on the test doubles *)

Module More_runs.

Import Double Faults.

Lemma all_resolved {W} (evs : list (event W)) :
  forallb resolved evs = true -> Forall (fun ev => resolved ev = true) evs.
Proof.
  intros H. apply Forall_forall. intros ev Hin.
  rewrite forallb_forall in H. apply H. exact Hin.
Defined.

Lemma forge_returns_when_all_resolve_witness :
  exists r st, forged = (inr r, st).
Proof.
  eexists _, _.
  exact (forge_returns_when_all_resolve hex2buf blake2bHex (toolkit healthy)
           transfer (start 5) "tz1alice" 5%N (contract healthy "KT1token")
           5%N {| permit_counter := Some 5%N |} 5%N "edpkalice" 5%N _ _ 5%N
           _ "NetXdQprcVkpaWU" 5%N 5%N _ 5%N _ 5%N
           eq_refl eq_refl eq_refl eq_refl eq_refl eq_refl eq_refl eq_refl
           eq_refl eq_refl eq_refl).
Defined.

Example offline_calls :
  kinds (log (snd offline)) = firstn 6 forge_steps /\
  fst offline = inl "refused".
Proof. split; vm_compute; reflexivity. Qed.

Lemma rejected_call_ends_the_forge_witness :
  In (RpcGetChainId, inl "refused") (log (snd offline)) /\
  fst offline = inl "refused" /\
  exists before,
    log (snd offline) = before ++ [(RpcGetChainId, inl "refused")] /\
    Forall (fun ev => resolved ev = true) before /\
    prefix (kinds before ++ [KRpcGetChainId]) forge_steps.
Proof.
  assert (Hin : In (RpcGetChainId, inl "refused") (log (snd offline))).
  { apply (nth_error_In _ 5). vm_compute. reflexivity. }
  split; [exact Hin |].
  exact (rejected_call_ends_the_forge hex2buf blake2bHex
           (refusing KRpcGetChainId) transfer (start 5) (log (snd offline))
           RpcGetChainId "refused" eq_refl Hin).
Defined.

Lemma forge_encoding_error_before_packing_witness :
  exists st,
    unencoded = (inl "EncodingError", st) /\
    kinds (log st) = firstn 4 forge_steps.
Proof.
  eexists. split.
  - exact (forge_encoding_error_before_packing hex2buf blake2bHex
             (with_contract unencodable) transfer (start 5) "tz1alice" 5%N
             (unencodable "KT1token") 5%N {| permit_counter := Some 5%N |}
             5%N "edpkalice" 5%N "EncodingError"
             eq_refl eq_refl eq_refl eq_refl eq_refl).
  - reflexivity.
Defined.

Lemma forge_without_permit_counter_witness :
  exists e st,
    uncounted_run = (inl e, st) /\ kinds (log st) = firstn 6 forge_steps.
Proof.
  destruct (forge_without_permit_counter hex2buf blake2bHex
              (with_contract uncounted) transfer (start 5) "tz1alice" 5%N
              (uncounted "KT1token") 5%N {| permit_counter := None |} 5%N
              "edpkalice" 5%N _ _ 5%N _ "NetXdQprcVkpaWU" 5%N
              eq_refl eq_refl eq_refl eq_refl eq_refl eq_refl eq_refl
              eq_refl eq_refl) as (e & H).
  exists e. eexists. split; [exact H | reflexivity].
Defined.

Lemma forge_throws_of_its_own_in_three_places_witness :
  fst unencoded = inl "EncodingError" /\
  Forall (fun ev => resolved ev = true) (log (snd unencoded)) /\
  ((exists from_ c,
      In (WalletPkh, inr (RString from_)) (log (snd unencoded)) /\
      In (WalletAt "KT1token", inr (RContract c)) (log (snd unencoded)) /\
      parameterSchema_Encode c "transfer"
        [item 0 (formTransferParams from_ RELAYER_ADDRESS transfer)]
      = inl "EncodingError" /\
      kinds (log (snd unencoded)) = firstn 4 forge_steps) \/
   (exists unpacked raw_packed,
      In (RpcPackData unpacked, inr (RPacked raw_packed))
        (log (snd unencoded)) /\
      hex2buf (packed raw_packed) = inl "EncodingError" /\
      kinds (log (snd unencoded)) = firstn 5 forge_steps) \/
   (exists (c : ContractAbstraction N) st,
      In (ContractStorage (address c), inr (RStorage st))
        (log (snd unencoded)) /\
      permit_counter st = None /\
      kinds (log (snd unencoded)) = firstn 6 forge_steps)).
Proof.
  assert (Hthrown : fst unencoded = inl "EncodingError")
    by (vm_compute; reflexivity).
  assert (Hall : Forall (fun ev => resolved ev = true) (log (snd unencoded))).
  { apply all_resolved. vm_compute. reflexivity. }
  split; [exact Hthrown |]. split; [exact Hall |].
  exact (forge_throws_of_its_own_in_three_places hex2buf blake2bHex
           (with_contract unencodable) transfer (start 5)
           (log (snd unencoded)) "EncodingError" eq_refl Hthrown Hall).
Defined.

Lemma estimate_sums_every_estimate_witness :
  (exists st,
     estimate (toolkit revealing) request (start 5)
     = (inr (Finite 724), st)) /\
  (exists st,
     estimate (toolkit silent) request (start 5) = (inr (Finite 0), st)).
Proof.
  split; eexists.
  - apply (estimate_sums_every_estimate (toolkit revealing) request (start 5)
             (contract revealing "KT1token") 5%N _ _ _ _
             [374; 100; 250]%N 5%N
             eq_refl eq_refl eq_refl eq_refl eq_refl eq_refl).
    vm_compute. discriminate.
  - apply (estimate_sums_every_estimate (toolkit silent) request (start 5)
             (contract silent "KT1token") 5%N _ _ _ _ [] 5%N
             eq_refl eq_refl eq_refl eq_refl eq_refl eq_refl).
    vm_compute. discriminate.
Defined.

Lemma estimate_submits_nothing_unbuilt_witness :
  exists st,
    estimate (with_contract permitless) request (start 5)
    = (inl "TypeError: contract.methods.permit is not a function", st) /\
    kinds (log st) = [KContractAt].
Proof.
  eexists. split.
  - apply (estimate_submits_nothing_unbuilt (with_contract permitless)
             request (start 5) (permitless "KT1token") 5%N _ eq_refl).
    left. reflexivity.
  - reflexivity.
Defined.

Lemma forged_permit_is_estimated_on_its_argument_witness :
  exists transferParams permitParams group,
    forged = (inr (transferParams, permitParams), snd forged) /\
    transferParams = VArray [group].
Proof.
  destruct Runs.forged_returns as ([transferParams permitParams] & H).
  destruct (forged_permit_is_estimated_on_its_argument hex2buf blake2bHex
              (toolkit healthy) transfer (start 5) _ _ _ H)
    as (group & Hgroup & _).
  exists transferParams, permitParams, group. split; assumption.
Defined.

Lemma permit_tuple_determines_its_parts_witness :
  (5 <= 2 ^ 53)%N /\
  ("KT1token" = "KT1token" /\ "NetXdQprcVkpaWU" = "NetXdQprcVkpaWU" /\
   5%N = 5%N /\ "hash" = "hash").
Proof.
  assert (H : (5 <= 2 ^ 53)%N) by (vm_compute; discriminate).
  split; [exact H |].
  exact (permit_tuple_determines_its_parts "KT1token" "NetXdQprcVkpaWU" 5%N
           "hash" "KT1token" "NetXdQprcVkpaWU" 5%N "hash" H H eq_refl).
Defined.

Lemma permit_hash_failures_witness :
  permitParamHash hex2buf blake2bHex (with_contract unencodable)
    (unencodable "KT1token") "transfer" batch (start 5)
  = (inl "EncodingError", start 5).
Proof.
  apply (proj2 (permit_hash_failures hex2buf blake2bHex
                  (with_contract unencodable) (unencodable "KT1token")
                  "transfer" batch (start 5) "EncodingError" (start 5))).
  right. left. eexists. repeat split; reflexivity.
Defined.

End More_runs.
